(** * LokaFlow lokallm pipeline: dataset collection, QLoRA training, GGUF export

    A shallow embedding of the three command-line stages of
    [packages/lokallm]:

    - [data/generate.py]  (module [Generate]): the dataset collector;
    - [train/lora.py]     (module [Lora]):     the adapter trainer;
    - [export/gguf.py]    (module [Gguf]):     the artifact exporter.

    Python code that mutates the process state (standard streams, the file
    system, the routing service) is written in a small state-and-exception
    monad; the operating system and the third-party libraries the scripts call
    are modelled next to the code that calls them. *)

From Stdlib Require Import ZArith Lia String Ascii List.
From stdpp Require Import gmap strings list fin_maps pretty.

Local Open Scope string_scope.
Local Open Scope list_scope.
Set Warnings "-register-all".

(** ** Effects: state passing with exceptions *)

Inductive outcome (A E : Type) : Type :=
| Returns (a : A)
| Raises (e : E).
Arguments Returns {A E} a.
Arguments Raises {A E} e.

Definition Eff (S E A : Type) : Type := S -> outcome A E * S.

Definition ret {S E A} (a : A) : Eff S E A := fun s => (Returns a, s).

Definition bind {S E A B} (m : Eff S E A) (k : A -> Eff S E B) : Eff S E B :=
  fun s =>
    match m s with
    | (Returns a, s') => k a s'
    | (Raises e, s') => (Raises e, s')
    end.

Definition raise {S E A} (e : E) : Eff S E A := fun s => (Raises e, s).

Definition modify {S E} (f : S -> S) : Eff S E unit := fun s => (Returns tt, f s).

Definition gets {S E A} (f : S -> A) : Eff S E A := fun s => (Returns (f s), s).

(** [try: m except: h] is Python's [try: ... except Exception as e: ...]. *)
Definition try_except {S E A} (m : Eff S E A) (h : E -> Eff S E A) : Eff S E A :=
  fun s =>
    match m s with
    | (Returns a, s') => (Returns a, s')
    | (Raises e, s') => h e s'
    end.

Declare Scope eff_scope.
Delimit Scope eff_scope with eff.
Notation "x <- m ;; k" := (bind m (fun x => k))
  (at level 100, m at next level, right associativity) : eff_scope.
Notation "m ;; k" := (bind m (fun _ => k))
  (at level 100, right associativity) : eff_scope.

(** Characters used to build the literals that cannot be typed inline. *)
Definition nl : string := String "010"%char EmptyString.
Definition dquote : string := String "034"%char EmptyString.

(** ** The file system seen through [os] and [open] *)

Module Fs.

Inductive node : Type :=
| File (content : string)
| Dir.

Inductive oserror : Type :=
| FileNotFoundError
| IsADirectoryError
| NotADirectoryError
| FileExistsError
| PermissionError
| NoSpaceLeft
| BadFileDescriptor.

(** [nodes] maps a path (as the program spells it, without [.], [..] or
    doubled separators) to what is there; the root and the working
    directory always exist.  [denied] are the paths the process may neither
    create nor open for writing; [space] is the number of bytes the device
    still accepts ([None]: no limit). *)
Record world : Type := World {
  nodes : gmap string node;
  denied : gset string;
  space : option nat
}.

Definition with_nodes (f : gmap string node -> gmap string node) (w : world) : world :=
  {| nodes := f (nodes w); denied := denied w; space := space w |}.

Definition is_sep (c : ascii) : bool := Ascii.eqb c "/".

Fixpoint contains_sep (s : string) : bool :=
  match s with
  | EmptyString => false
  | String c r => is_sep c || contains_sep r
  end.

Fixpoint all_seps (s : string) : bool :=
  match s with
  | EmptyString => true
  | String c r => is_sep c && all_seps r
  end.

Definition nonempty (s : string) : bool :=
  match s with EmptyString => false | String _ _ => true end.

(** [p[:p.rfind('/') + 1]] *)
Fixpoint head_through_last_sep (p : string) : string :=
  match p with
  | EmptyString => EmptyString
  | String c r =>
      if contains_sep r then String c (head_through_last_sep r)
      else if is_sep c then String c EmptyString
      else EmptyString
  end.

(** [s.rstrip('/')] *)
Fixpoint rstrip_sep (s : string) : string :=
  match s with
  | EmptyString => EmptyString
  | String c r =>
      match rstrip_sep r with
      | EmptyString => if is_sep c then EmptyString else String c EmptyString
      | r' => String c r'
      end
  end.

(** [os.path.dirname] (posixpath). *)
Definition dirname (p : string) : string :=
  let head := head_through_last_sep p in
  if nonempty head && negb (all_seps head) then rstrip_sep head else head.

Fixpoint ends_with_sep (s : string) : bool :=
  match s with
  | EmptyString => false
  | String c EmptyString => is_sep c
  | String _ r => ends_with_sep r
  end.

(** What is at [p]: the working directory ([""]) and the root are
    directories. *)
Definition lookup (w : world) (p : string) : option node :=
  if all_seps p then Some Dir else nodes w !! p.

Definition is_file (w : world) (p : string) : bool :=
  match lookup w p with Some (File _) => true | _ => false end.

(** The directories [os.makedirs] visits for a path, outermost first:
    [a], [a/b], [a/b/c] for [a/b/c]. *)
Fixpoint prefixes_from (acc rest : string) : list string :=
  let here := if nonempty acc && negb (ends_with_sep acc) then [acc] else [] in
  match rest with
  | EmptyString => here
  | String c r =>
      if is_sep c then here ++ prefixes_from (acc +:+ String c EmptyString) r
      else prefixes_from (acc +:+ String c EmptyString) r
  end.

Definition prefixes (p : string) : list string := prefixes_from EmptyString p.

(** [os.mkdir] accepting an existing directory. *)
Definition mkdir_exist_ok (p : string) : Eff world oserror unit :=
  fun w =>
    match lookup w p with
    | Some Dir => (Returns tt, w)
    | Some (File _) => (Raises FileExistsError, w)
    | None =>
        if bool_decide (p ∈ denied w) then (Raises PermissionError, w)
        else (Returns tt, with_nodes (insert p Dir) w)
    end.

Fixpoint mkdirs (ps : list string) : Eff world oserror unit :=
  match ps with
  | [] => ret tt
  | p :: rest => (mkdir_exist_ok p ;; mkdirs rest)%eff
  end.

(** [os.makedirs(name, exist_ok=True)]: directories created before a
    failure stay. *)
Definition makedirs (name : string) : Eff world oserror unit :=
  mkdirs (prefixes name).

(** [open(path, "w")]: creates the file or truncates it. *)
Definition open_w (path : string) : Eff world oserror unit :=
  fun w =>
    if negb (nonempty path) then (Raises FileNotFoundError, w)
    else if ends_with_sep path then (Raises IsADirectoryError, w)
    else
      match lookup w path with
      | Some Dir => (Raises IsADirectoryError, w)
      | _ =>
          match lookup w (dirname path) with
          | Some Dir =>
              if bool_decide (path ∈ denied w) then (Raises PermissionError, w)
              else (Returns tt, with_nodes (insert path (File EmptyString)) w)
          | Some (File _) => (Raises NotADirectoryError, w)
          | None => (Raises FileNotFoundError, w)
          end
      end.

(** [f.write(data)] on the file opened at [path]; when the device runs out
    of space the bytes it accepted stay in the file. *)
Definition write (path data : string) : Eff world oserror unit :=
  fun w =>
    match nodes w !! path with
    | Some (File old) =>
        match space w with
        | None => (Returns tt, with_nodes (insert path (File (old +:+ data))) w)
        | Some n =>
            if (String.length data <=? n)%nat
            then (Returns tt,
                  {| nodes := <[path := File (old +:+ data)]> (nodes w);
                     denied := denied w;
                     space := Some (n - String.length data) |})
            else (Raises NoSpaceLeft,
                  {| nodes := <[path := File (old +:+ substring 0 n data)]> (nodes w);
                     denied := denied w;
                     space := Some 0 |})
        end
    | _ => (Raises BadFileDescriptor, w)
    end.

End Fs.

(** ** export/gguf.py: the artifact exporter *)

Module Gguf.

(** The parsed command line: [--adapter], [--base_model], [--output]. *)
Record Args : Type := {
  adapter : string;
  base_model : string;
  output : string
}.

Definition default_base_model : string := "microsoft/Phi-3-mini-4k-instruct".

(** The AdapterArtifact of the pipeline's data model: the directory a
    training run saved its adapter to, and the base-model identifier that
    run was given.  The exporter receives only [Args]. *)
Record AdapterArtifact : Type := {
  adapter_dir : string;
  trained_against : string
}.

(** The process running the script: both standard streams (one entry per
    [print] call) and the file system. *)
Record Process : Type := {
  stderr : list string;
  stdout : list string;
  os : Fs.world
}.

Definition eprint (s : string) : Eff Process Fs.oserror unit :=
  modify (fun p => {| stderr := stderr p ++ [s]; stdout := stdout p; os := os p |}).

Definition print (s : string) : Eff Process Fs.oserror unit :=
  modify (fun p => {| stderr := stderr p; stdout := stdout p ++ [s]; os := os p |}).

Definition syscall {A} (m : Eff Fs.world Fs.oserror A) : Eff Process Fs.oserror A :=
  fun p =>
    let (r, w) := m (os p) in
    (r, {| stderr := stderr p; stdout := stdout p; os := w |}).

Definition mock_data : string := "GGUF_MOCK_DATA".

Definition modelfile (out : string) : string :=
  nl +:+ "    FROM " +:+ out +:+ nl +:+
  "    TEMPLATE " +:+ dquote +:+ dquote +:+ dquote +:+ "<|user|>" +:+ nl +:+
  "    {{ .Prompt }}<|end|>" +:+ nl +:+
  "    <|assistant|>" +:+ nl +:+
  "    " +:+ dquote +:+ dquote +:+ dquote +:+ nl +:+
  "    ".

Definition main (args : Args) : Eff Process Fs.oserror unit :=
  (eprint "🚀 LokaFlow GGUF Exporter 🚀" ;;
   eprint ("Base Model: " +:+ base_model args) ;;
   eprint ("Adapter:    " +:+ adapter args) ;;
   eprint ("Output:     " +:+ output args) ;;
   eprint (nl +:+ "[Mock Export Environment]") ;;
   eprint "In a complete pipeline, this script downloads https://github.com/ggerganov/llama.cpp." ;;
   eprint "It merges the peft weights and runs 'convert-hf-to-gguf.py', creating a Q4_K_M quant." ;;
   eprint (nl +:+ "Since this is an architectural scaffold, we will touch the output file to simulate success.") ;;
   (* Touch the output file *)
   let out_dir := Fs.dirname (output args) in
   (if Fs.nonempty out_dir
    then syscall (Fs.makedirs out_dir)
    else ret tt) ;;
   syscall (Fs.open_w (output args)) ;;
   syscall (Fs.write (output args) mock_data) ;;
   eprint (nl +:+ "✅ Created mock GGUF file: " +:+ output args) ;;
   print (nl +:+ "You can now import this into Ollama within the Mesh using a Modelfile:") ;;
   print (modelfile (output args)))%eff.

(** The exit status of the script: an uncaught exception ends it with 1. *)
Definition exit_code {A} (r : outcome A Fs.oserror) : Z :=
  match r with Returns _ => 0%Z | Raises _ => 1%Z end.

Definition fresh (w : Fs.world) : Process :=
  {| stderr := []; stdout := []; os := w |}.

(** What [main] does to the file system: the three steps after the banner. *)
Definition touch (out : string) : Eff Fs.world Fs.oserror unit :=
  ((if Fs.nonempty (Fs.dirname out) then Fs.makedirs (Fs.dirname out) else ret tt) ;;
   Fs.open_w out ;;
   Fs.write out mock_data)%eff.

(** An invocation exports an artifact when [--adapter] names its directory. *)
Definition exports (args : Args) (art : AdapterArtifact) : Prop :=
  adapter args = adapter_dir art.

(** Concrete runs. *)
Definition empty_disk : Fs.world :=
  {| Fs.nodes := ∅; Fs.denied := ∅; Fs.space := None |}.

Definition nearly_full_disk : Fs.world :=
  {| Fs.nodes := ∅; Fs.denied := ∅; Fs.space := Some 5 |}.

Definition phi3_adapter : AdapterArtifact :=
  {| adapter_dir := "adapters/router";
     trained_against := "microsoft/Phi-3-mini-4k-instruct" |}.

Definition export_against_llama : Args :=
  {| adapter := "adapters/router";
     base_model := "meta-llama/Llama-3.2-1B";
     output := "out/model.gguf" |}.

Definition export_against_phi3 : Args :=
  {| adapter := "adapters/router";
     base_model := default_base_model;
     output := "out/model.gguf" |}.

(** The lines [main] prints on standard error before it touches the disk. *)
Definition banner (args : Args) : list string :=
  [ "🚀 LokaFlow GGUF Exporter 🚀";
    "Base Model: " +:+ base_model args;
    "Adapter:    " +:+ adapter args;
    "Output:     " +:+ output args;
    nl +:+ "[Mock Export Environment]";
    "In a complete pipeline, this script downloads https://github.com/ggerganov/llama.cpp.";
    "It merges the peft weights and runs 'convert-hf-to-gguf.py', creating a Q4_K_M quant.";
    nl +:+ "Since this is an architectural scaffold, we will touch the output file to simulate success." ].

Definition disk_with_adapter : Fs.world :=
  {| Fs.nodes := {[ "adapters" := Fs.Dir;
                    "adapters/router" := Fs.Dir;
                    "adapters/router/adapter_model.safetensors" := Fs.File "weights" ]};
     Fs.denied := ∅;
     Fs.space := None |}.

Definition export_onto_adapter : Args :=
  {| adapter := "adapters/router";
     base_model := default_base_model;
     output := "adapters/router" |}.

End Gguf.

(** ** train/lora.py: the adapter trainer *)

Module Lora.

(** The parsed command line. *)
Record Args : Type := {
  dataset : string;
  output_dir : string;
  base_model : string;
  epochs : Z;
  batch_size : Z
}.

Definition default_base_model : string := "microsoft/Phi-3-mini-4k-instruct".
Definition default_epochs : Z := 3.
Definition default_batch_size : Z := 4.

(** Configuration objects the script builds; a floating-point literal is
    kept as the source writes it. *)
Record BitsAndBytesConfig : Type := {
  load_in_4bit : bool;
  bnb_4bit_quant_type : string;
  bnb_4bit_compute_dtype : string;
  bnb_4bit_use_double_quant : bool
}.

Record LoraConfig : Type := {
  r : Z;
  lora_alpha : Z;
  target_modules : list string;
  lora_dropout : string;
  bias : string;
  task_type : string
}.

Record TrainingArguments : Type := {
  ta_output_dir : string;
  per_device_train_batch_size : Z;
  gradient_accumulation_steps : Z;
  optim : string;
  save_steps : Z;
  logging_steps : Z;
  learning_rate : string;
  max_grad_norm : string;
  max_steps : Z;
  num_train_epochs : Z;
  warmup_ratio : string;
  lr_scheduler_type : string;
  fp16 : bool
}.

Record SFTTrainerOptions : Type := {
  sft_peft_config : LoraConfig;
  dataset_text_field : string;
  max_seq_length : Z;
  sft_args : TrainingArguments
}.

(** The calls into transformers, peft, datasets and trl, in the words of the
    script. *)
Inductive call : Type :=
| AutoTokenizer_from_pretrained (name : string)
| Set_pad_token_to_eos_token
| Make_BitsAndBytesConfig (c : BitsAndBytesConfig)
| AutoModelForCausalLM_from_pretrained (name : string) (q : BitsAndBytesConfig)
| prepare_model_for_kbit_training
| Make_LoraConfig (c : LoraConfig)
| get_peft_model (c : LoraConfig)
| print_trainable_parameters
| load_dataset (data_files : string)
| Make_TrainingArguments (t : TrainingArguments)
| Make_SFTTrainer (o : SFTTrainerOptions)
| trainer_train
| model_save_pretrained (dir : string)
| tokenizer_save_pretrained (dir : string).

Inductive event : Type :=
| Printed (line : string)
| Called (c : call).

(** What the script can observe of the libraries: each call returns or
    raises, and may change the file system (downloads, checkpoints, the saved
    adapter).  The libraries read the dataset file from the same file
    system. *)
Definition Runtime : Type := call -> Eff Fs.world string unit.

Record Process : Type := {
  trace : list event;
  os : Fs.world
}.

Definition log (e : event) (p : Process) : Process :=
  {| trace := trace p ++ [e]; os := os p |}.

Definition print (s : string) : Eff Process string unit :=
  modify (log (Printed s)).

(** A library call is attempted (and observable) before its outcome is
    known. *)
Definition invoke (rt : Runtime) (c : call) : Eff Process string unit :=
  fun p =>
    let (res, w) := rt c (os p) in
    (res, {| trace := trace p ++ [Called c]; os := w |}).

Definition bnb_config : BitsAndBytesConfig :=
  {| load_in_4bit := true;
     bnb_4bit_quant_type := "nf4";
     bnb_4bit_compute_dtype := "torch.float16";
     bnb_4bit_use_double_quant := true |}.

Definition peft_config : LoraConfig :=
  {| r := 16;
     lora_alpha := 16;
     target_modules :=
       ["q_proj"; "k_proj"; "v_proj"; "o_proj"; "gate_proj"; "up_proj"; "down_proj"];
     lora_dropout := "0.05";
     bias := "none";
     task_type := "CAUSAL_LM" |}.

Definition training_args (args : Args) : TrainingArguments :=
  {| ta_output_dir := output_dir args;
     per_device_train_batch_size := batch_size args;
     gradient_accumulation_steps := 4;
     optim := "paged_adamw_32bit";
     save_steps := 100;
     logging_steps := 10;
     learning_rate := "2e-4";
     max_grad_norm := "0.3";
     max_steps := -1;
     num_train_epochs := epochs args;
     warmup_ratio := "0.03";
     lr_scheduler_type := "constant";
     fp16 := true |}.

(** Format specifically for Phi-3 instruct. *)
Definition format_instruction (instruction target : string) : string :=
  "<|user|>" +:+ nl +:+ instruction +:+ "<|end|>" +:+ nl +:+
  "<|assistant|>" +:+ nl +:+ target +:+ "<|end|>".

Definition main (rt : Runtime) (args : Args) : Eff Process string unit :=
  (print ("Loading tokenizer " +:+ base_model args +:+ "...") ;;
   invoke rt (AutoTokenizer_from_pretrained (base_model args)) ;;
   invoke rt Set_pad_token_to_eos_token ;;
   print "Configuring 4-bit quantization (BitsAndBytes)..." ;;
   invoke rt (Make_BitsAndBytesConfig bnb_config) ;;
   print ("Loading model " +:+ base_model args +:+ "...") ;;
   invoke rt (AutoModelForCausalLM_from_pretrained (base_model args) bnb_config) ;;
   invoke rt prepare_model_for_kbit_training ;;
   print "Configuring LoRA Adapter..." ;;
   invoke rt (Make_LoraConfig peft_config) ;;
   invoke rt (get_peft_model peft_config) ;;
   invoke rt print_trainable_parameters ;;
   print ("Loading dataset from " +:+ dataset args +:+ "...") ;;
   invoke rt (load_dataset (dataset args)) ;;
   invoke rt (Make_TrainingArguments (training_args args)) ;;
   print "Initializing SFT Trainer..." ;;
   invoke rt (Make_SFTTrainer
                {| sft_peft_config := peft_config;
                   dataset_text_field := "text";
                   max_seq_length := 1024;
                   sft_args := training_args args |}) ;;
   print "Starting training..." ;;
   invoke rt trainer_train ;;
   print ("Saving final adapter to " +:+ output_dir args +:+ "...") ;;
   invoke rt (model_save_pretrained (output_dir args)) ;;
   invoke rt (tokenizer_save_pretrained (output_dir args)) ;;
   print "Training complete! Run loka-export to merge into GGUF.")%eff.

(** The events of a run that nothing interrupts. *)
Definition script (args : Args) : list event :=
  [ Printed ("Loading tokenizer " +:+ base_model args +:+ "...");
    Called (AutoTokenizer_from_pretrained (base_model args));
    Called Set_pad_token_to_eos_token;
    Printed "Configuring 4-bit quantization (BitsAndBytes)...";
    Called (Make_BitsAndBytesConfig bnb_config);
    Printed ("Loading model " +:+ base_model args +:+ "...");
    Called (AutoModelForCausalLM_from_pretrained (base_model args) bnb_config);
    Called prepare_model_for_kbit_training;
    Printed "Configuring LoRA Adapter...";
    Called (Make_LoraConfig peft_config);
    Called (get_peft_model peft_config);
    Called print_trainable_parameters;
    Printed ("Loading dataset from " +:+ dataset args +:+ "...");
    Called (load_dataset (dataset args));
    Called (Make_TrainingArguments (training_args args));
    Printed "Initializing SFT Trainer...";
    Called (Make_SFTTrainer
              {| sft_peft_config := peft_config;
                 dataset_text_field := "text";
                 max_seq_length := 1024;
                 sft_args := training_args args |});
    Printed "Starting training...";
    Called trainer_train;
    Printed ("Saving final adapter to " +:+ output_dir args +:+ "...");
    Called (model_save_pretrained (output_dir args));
    Called (tokenizer_save_pretrained (output_dir args));
    Printed "Training complete! Run loka-export to merge into GGUF." ].

(** A dataset file without a record, as the collector writes it when nothing
    was scored. *)
Definition empty_dataset (w : Fs.world) (path : string) : Prop :=
  Fs.lookup w path = Some (Fs.File EmptyString).

(** A runtime in which every library call returns and leaves the file system
    alone. *)
Definition obliging : Runtime := fun _ => ret tt.

(** A runtime whose dataset loader refuses a file without records. *)
Definition strict_loader : Runtime :=
  fun c w =>
    match c with
    | load_dataset path =>
        match Fs.lookup w path with
        | Some (Fs.File EmptyString) => (Raises "empty dataset", w)
        | Some (Fs.File _) => (Returns tt, w)
        | _ => (Raises "dataset not found", w)
        end
    | _ => (Returns tt, w)
    end.

Definition start (w : Fs.world) : Process := {| trace := []; os := w |}.

(** Every occurrence of [b] in a trace comes after an occurrence of [a]. *)
Definition happens_before (a b : event) (t : list event) : Prop :=
  forall i, t !! i = Some b -> exists j, j < i /\ t !! j = Some a.

(** A call that returns in every state of the file system. *)
Definition returns (rt : Runtime) (c : call) : Prop :=
  forall w, fst (rt c w) = Returns tt.

Definition weights_load (args : Args) : event :=
  Called (AutoModelForCausalLM_from_pretrained (base_model args) bnb_config).

(** Concrete runs. *)
Definition disk_with_empty_dataset : Fs.world :=
  {| Fs.nodes := {[ "data/train.jsonl" := Fs.File EmptyString ]};
     Fs.denied := ∅;
     Fs.space := None |}.

Definition train_on_empty : Args :=
  {| dataset := "data/train.jsonl";
     output_dir := "adapters/router";
     base_model := default_base_model;
     epochs := default_epochs;
     batch_size := default_batch_size |}.

End Lora.

(** ** Python's [json] values and [json.dumps] *)

Module Json.

(** A decoded JSON document.  A number is kept as the literal [json.dumps]
    prints for it ([0.1], [3], [NaN]); an object is a Python [dict]: its keys
    are distinct and stay in insertion order. *)
Inductive json : Type :=
| JNull
| JBool (b : bool)
| JNum (literal : string)
| JStr (s : string)
| JArr (items : list json)
| JObj (fields : list (string * json)).

(** [d.get(key, dflt)] *)
Fixpoint dict_get (fields : list (string * json)) (key : string) (dflt : json) : json :=
  match fields with
  | [] => dflt
  | (k, v) :: rest => if String.eqb k key then v else dict_get rest key dflt
  end.

Fixpoint has_key (fields : list (string * json)) (key : string) : bool :=
  match fields with
  | [] => false
  | (k, _) :: rest => String.eqb k key || has_key rest key
  end.

Definition backslash : string := String "092"%char EmptyString.

(** A [str] is held as its UTF-8 encoding; [code_points] reads the
    characters back. *)
Definition is_cont (b : N) : bool := ((128 <=? b) && (b <? 192))%N.

Definition low6 (b : N) : N := N.land b 63.

Fixpoint code_points (s : string) : list N :=
  match s with
  | EmptyString => []
  | String c0 r0 =>
      let b0 := N_of_ascii c0 in
      match r0 with
      | String c1 r1 =>
          let b1 := N_of_ascii c1 in
          if ((192 <=? b0) && (b0 <? 224))%N && is_cont b1
          then (N.land b0 31 * 64 + low6 b1)%N :: code_points r1
          else
            match r1 with
            | String c2 r2 =>
                let b2 := N_of_ascii c2 in
                if ((224 <=? b0) && (b0 <? 240))%N && is_cont b1 && is_cont b2
                then (N.land b0 15 * 4096 + low6 b1 * 64 + low6 b2)%N :: code_points r2
                else
                  match r2 with
                  | String c3 r3 =>
                      let b3 := N_of_ascii c3 in
                      if ((240 <=? b0) && (b0 <? 248))%N
                         && is_cont b1 && is_cont b2 && is_cont b3
                      then (N.land b0 7 * 262144 + low6 b1 * 4096
                            + low6 b2 * 64 + low6 b3)%N :: code_points r3
                      else b0 :: code_points r0
                  | EmptyString => b0 :: code_points r0
                  end
            | EmptyString => b0 :: code_points r0
            end
      | EmptyString => [b0]
      end
  end.

Definition hex_digit (n : N) : string :=
  String (nth (N.to_nat n) (list_ascii_of_string "0123456789abcdef") "0"%char) EmptyString.

(** ['\\u{0:04x}'.format(n)] *)
Definition u_escape (n : N) : string :=
  backslash +:+ "u" +:+
  hex_digit (N.land (N.shiftr n 12) 15) +:+ hex_digit (N.land (N.shiftr n 8) 15) +:+
  hex_digit (N.land (N.shiftr n 4) 15) +:+ hex_digit (N.land n 15).

(** One character under [ensure_ascii=True]. *)
Definition escape_char (n : N) : string :=
  if (n =? 92)%N then backslash +:+ backslash
  else if (n =? 34)%N then backslash +:+ dquote
  else if (n =? 8)%N then backslash +:+ "b"
  else if (n =? 12)%N then backslash +:+ "f"
  else if (n =? 10)%N then backslash +:+ "n"
  else if (n =? 13)%N then backslash +:+ "r"
  else if (n =? 9)%N then backslash +:+ "t"
  else if ((32 <=? n) && (n <=? 126))%N then String (ascii_of_N n) EmptyString
  else if (n <? 65536)%N then u_escape n
  else
    let m := (n - 65536)%N in
    u_escape (N.lor 55296 (N.land (N.shiftr m 10) 1023)) +:+
    u_escape (N.lor 56320 (N.land m 1023)).

Definition encode_str (s : string) : string :=
  dquote +:+ String.concat EmptyString (map escape_char (code_points s)) +:+ dquote.

(** [json.dumps(v)] with the default separators. *)
Fixpoint json_dumps (v : json) : string :=
  match v with
  | JNull => "null"
  | JBool true => "true"
  | JBool false => "false"
  | JNum literal => literal
  | JStr s => encode_str s
  | JArr items => "[" +:+ String.concat ", " (map json_dumps items) +:+ "]"
  | JObj fields =>
      "{" +:+
      String.concat ", "
        (map (fun kv => encode_str (fst kv) +:+ ": " +:+ json_dumps (snd kv)) fields)
      +:+ "}"
  end.

End Json.

(** ** data/generate.py: the dataset collector *)

Module Generate.
Import Json.

(** The parsed command line: [--output], [--samples]. *)
Record Args : Type := {
  output : string;
  samples : Z
}.

Definition default_samples : Z := 100.

(** One record of the dataset, the [dict] [generate_sample] returns. *)
Record Sample : Type := {
  instruction : string;
  complexity_score : json;
  tier : json;
  target : string
}.

(** The record as [json.dumps] receives it: the keys in the order the
    [dict] display lists them. *)
Definition sample_json (s : Sample) : json :=
  JObj [ ("instruction", JStr (instruction s));
         ("complexity_score", complexity_score s);
         ("tier", tier s);
         ("target", JStr (target s)) ].

(** What one [requests.post] to the routing service comes back with.
    [body] is what [req.json()] decodes, [None] when the body is not JSON. *)
Inductive reply : Type :=
| ConnectionFailed (cause : string)
| TimedOut
| Answered (status : Z) (body : option json).

(** The routing service: its reply to the [n]-th request of the run (the
    same prompt may be answered differently each time). *)
Definition Service : Type := nat -> string -> reply.

Inductive exn : Type :=
| ConnectionError (cause : string)
| Timeout
| HTTPError (status : Z)
| JSONDecodeError
| AttributeError (attribute : string)
| OSError (e : Fs.oserror).

(** A line on standard output; the text of an exception is the library's. *)
Inductive out_line : Type :=
| Line (text : string)
| FailedToScore (e : exn).

Record Process : Type := {
  requests : nat;
  stdout : list out_line;
  os : Fs.world
}.

Definition print (l : out_line) : Eff Process exn unit :=
  modify (fun p => {| requests := requests p; stdout := stdout p ++ [l]; os := os p |}).

Definition syscall {A} (m : Eff Fs.world Fs.oserror A) : Eff Process exn A :=
  fun p =>
    let (r, w) := m (os p) in
    let p' := {| requests := requests p; stdout := stdout p; os := w |} in
    match r with
    | Returns a => (Returns a, p')
    | Raises e => (Raises (OSError e), p')
    end.

(** [requests.post("http://localhost:4141/v1/route", json=..., timeout=10)] *)
Definition requests_post (svc : Service) (prompt : string)
  : Eff Process exn (Z * option json) :=
  fun p =>
    let p' := {| requests := S (requests p); stdout := stdout p; os := os p |} in
    match svc (requests p) prompt with
    | ConnectionFailed cause => (Raises (ConnectionError cause), p')
    | TimedOut => (Raises Timeout, p')
    | Answered status body => (Returns (status, body), p')
    end.

(** [req.raise_for_status()]: requests raises on a 4xx or 5xx status. *)
Definition raise_for_status (status : Z) : Eff Process exn unit :=
  if ((400 <=? status) && (status <? 600))%Z then raise (HTTPError status) else ret tt.

(** [req.json()] *)
Definition req_json (body : option json) : Eff Process exn json :=
  match body with
  | Some v => ret v
  | None => raise JSONDecodeError
  end.

(** [data.get(key, dflt)]: only a [dict] has [get]. *)
Definition data_get (data : json) (key : string) (dflt : json) : Eff Process exn json :=
  match data with
  | JObj fields => ret (dict_get fields key dflt)
  | _ => raise (AttributeError "get")
  end.

Definition generate_sample (svc : Service) (prompt : string)
  : Eff Process exn (option Sample) :=
  try_except
    (req <- requests_post svc prompt ;;
     raise_for_status (fst req) ;;
     data <- req_json (snd req) ;;
     score <- data_get data "complexityScore" (JNum "0.0") ;;
     routing_tier <- data_get data "routingTier" (JStr "local") ;;
     target_score <- data_get data "complexityScore" (JNum "0.0") ;;
     reasoning <- data_get data "reasoning" (JStr "Unknown") ;;
     ret (Some {| instruction := prompt;
                  complexity_score := score;
                  tier := routing_tier;
                  target := json_dumps (JObj [ ("score", target_score);
                                               ("reasoning", reasoning) ]) |}))%eff
    (fun e => (print (FailedToScore e) ;; ret None)%eff).

(** [l * n] on a list: no copy when [n] is zero or negative. *)
Definition list_mul {A} (l : list A) (n : Z) : list A :=
  concat (replicate (Z.to_nat n) l).

Definition seed_prompts (samples : Z) : list string :=
  list_mul
    [ "What is the capital of France?";
      "Write a python script to parse Apache log files and group by status code.";
      "Can you explain the mathematical foundation of continuous diffusion models?";
      "Hello!";
      "Could you review this React code for performance bottlenecks? [code...]" ]
    (samples / 5)%Z.

(** The loop [for prompt in tqdm(seed_prompts)]; a returned record is a
    [dict] with four keys, so [if res:] holds exactly when it is not [None]. *)
Fixpoint collect (svc : Service) (prompts : list string) (results : list Sample)
  : Eff Process exn (list Sample) :=
  match prompts with
  | [] => ret results
  | prompt :: rest =>
      (res <- generate_sample svc prompt ;;
       match res with
       | Some sample => collect svc rest (results ++ [sample])
       | None => collect svc rest results
       end)%eff
  end.

(** [for r in results: f.write(json.dumps(r) + "\n")] *)
Fixpoint write_lines (path : string) (results : list Sample) : Eff Process exn unit :=
  match results with
  | [] => ret tt
  | r0 :: rest =>
      (syscall (Fs.write path (json_dumps (sample_json r0) +:+ nl)) ;;
       write_lines path rest)%eff
  end.

Definition main (svc : Service) (args : Args) : Eff Process exn unit :=
  (let prompts := seed_prompts (samples args) in
   print (Line ("Generating " +:+ pretty (length prompts)
                +:+ " labelled samples using LokaFlow endpoint...")) ;;
   results <- collect svc prompts [] ;;
   syscall (Fs.open_w (output args)) ;;
   write_lines (output args) results ;;
   print (Line ("Successfully saved " +:+ pretty (length results)
                +:+ " samples to " +:+ output args)))%eff.

Definition fresh (w : Fs.world) : Process :=
  {| requests := 0; stdout := []; os := w |}.

(** When scoring a prompt fails, by the reply alone. *)
Definition http_error (status : Z) : bool := ((400 <=? status) && (status <? 600))%Z.

Definition scoring_fails (r : reply) : bool :=
  match r with
  | ConnectionFailed _ => true
  | TimedOut => true
  | Answered status body =>
      http_error status
      || match body with Some (JObj _) => false | _ => true end
  end.

(** The record built from the fields of a decoded object. *)
Definition record_of (prompt : string) (fields : list (string * json)) : Sample :=
  {| instruction := prompt;
     complexity_score := dict_get fields "complexityScore" (JNum "0.0");
     tier := dict_get fields "routingTier" (JStr "local");
     target := json_dumps
                 (JObj [ ("score", dict_get fields "complexityScore" (JNum "0.0"));
                         ("reasoning", dict_get fields "reasoning" (JStr "Unknown")) ]) |}.

(** The outcome of one scoring, by the reply alone. *)
Definition scored (prompt : string) (r : reply) : option Sample :=
  match r with
  | Answered status (Some (JObj fields)) =>
      if http_error status then None else Some (record_of prompt fields)
  | _ => None
  end.

(** The records of a prompt sequence whose first request is the [n]-th. *)
Fixpoint dataset_of (svc : Service) (n : nat) (prompts : list string) : list Sample :=
  match prompts with
  | [] => []
  | prompt :: rest =>
      match scored prompt (svc n prompt) with
      | Some sample => sample :: dataset_of svc (S n) rest
      | None => dataset_of svc (S n) rest
      end
  end.

(** The exception a reply makes [generate_sample] catch, if any. *)
Definition failure_of (r : reply) : option exn :=
  match r with
  | ConnectionFailed cause => Some (ConnectionError cause)
  | TimedOut => Some Timeout
  | Answered status body =>
      if http_error status then Some (HTTPError status)
      else match body with
           | None => Some JSONDecodeError
           | Some (JObj _) => None
           | Some _ => Some (AttributeError "get")
           end
  end.

(** The failure lines of a prompt sequence whose first request is the
    [n]-th. *)
Fixpoint failures_of (svc : Service) (n : nat) (prompts : list string) : list out_line :=
  match prompts with
  | [] => []
  | prompt :: rest =>
      match failure_of (svc n prompt) with
      | Some e => FailedToScore e :: failures_of svc (S n) rest
      | None => failures_of svc (S n) rest
      end
  end.

(** Concrete runs. *)
Definition empty_disk : Fs.world :=
  {| Fs.nodes := ∅; Fs.denied := ∅; Fs.space := None |}.

(** A service that answers every request with status 300 and an empty
    object. *)
Definition multiple_choices : Service :=
  fun _ _ => Answered 300 (Some (JObj [])).

(** A service that knows one greeting and is down for everything else. *)
Definition greeter : Service :=
  fun _ prompt =>
    if String.eqb prompt "Hello!"
    then Answered 200
           (Some (JObj [ ("complexityScore", JNum "0.1");
                         ("routingTier", JStr "local");
                         ("reasoning", JStr "trivial greeting") ]))
    else Answered 503 None.

Definition negative_request : Args :=
  {| output := "data/train.jsonl"; samples := -5 |}.

Definition small_request : Args :=
  {| output := "train.jsonl"; samples := 3 |}.

(** The text of a dataset file: one serialized record per line. *)
Fixpoint dataset_text (results : list Sample) : string :=
  match results with
  | [] => EmptyString
  | r0 :: rest => (json_dumps (sample_json r0) +:+ nl) +:+ dataset_text rest
  end.

Definition nested_request : Args :=
  {| output := "data/train.jsonl"; samples := 10 |}.

Definition five_request : Args :=
  {| output := "train.jsonl"; samples := 5 |}.

Definition tight_disk : Fs.world :=
  {| Fs.nodes := {[ "train.jsonl" := Fs.File "stale" ]}; Fs.denied := ∅; Fs.space := Some 20 |}.

Definition disk_with_stale_dataset : Fs.world :=
  {| Fs.nodes := {[ "train.jsonl" := Fs.File "stale" ]}; Fs.denied := ∅; Fs.space := None |}.

(** A service that answers with values outside the documented ranges. *)
Definition careless : Service :=
  fun _ _ =>
    Answered 200 (Some (JObj [ ("routingTier", JNull); ("complexityScore", JNum "7.5") ])).

End Generate.

(** * Properties *)

Lemma bind_run {S E A B} (m : Eff S E A) (k : A -> Eff S E B) (s : S) :
  bind m k s =
  match m s with
  | (Returns a, s') => k a s'
  | (Raises e, s') => (Raises e, s')
  end.
Proof. reflexivity. Qed.

(** ** The file system *)

Section FsFacts.
Import Fs.

Lemma all_seps_ends_with_sep (p : string) :
  all_seps p = true -> nonempty p = true -> ends_with_sep p = true.
Proof.
  induction p as [|c r IH]; simpl; [discriminate|].
  intros Hall _. apply andb_true_iff in Hall as [Hc Hr].
  destruct r as [|c' r']; [exact Hc|].
  apply IH; [exact Hr|reflexivity].
Qed.

(** A path [open] accepts names neither the root nor the working directory. *)
Lemma openable_not_all_seps (p : string) :
  nonempty p = true -> ends_with_sep p = false -> all_seps p = false.
Proof.
  intros Hne Hends. destruct (all_seps p) eqn:Hall; [|reflexivity].
  rewrite (all_seps_ends_with_sep p Hall Hne) in Hends. discriminate.
Qed.

Lemma open_w_returns (path : string) (w w' : world) :
  open_w path w = (Returns tt, w') ->
  w' = with_nodes (insert path (File EmptyString)) w /\ all_seps path = false.
Proof.
  unfold open_w. intros H.
  destruct (nonempty path) eqn:Hne; simpl in H; [|discriminate].
  destruct (ends_with_sep path) eqn:Hends; [discriminate|].
  pose proof (openable_not_all_seps path Hne Hends) as Hall.
  split; [|exact Hall].
  destruct (lookup w path) as [[|]|]; try discriminate;
    destruct (lookup w (dirname path)) as [[|]|]; try discriminate;
    destruct (bool_decide (path ∈ denied w)); try discriminate;
    congruence.
Qed.

Lemma open_w_raises (path : string) (e : oserror) (w w' : world) :
  open_w path w = (Raises e, w') -> w' = w /\ e <> NoSpaceLeft.
Proof.
  unfold open_w. intros H.
  destruct (nonempty path); simpl in H; [|split; congruence].
  destruct (ends_with_sep path); [split; congruence|].
  destruct (lookup w path) as [[|]|]; try (split; congruence);
    destruct (lookup w (dirname path)) as [[|]|]; try (split; congruence);
    destruct (bool_decide (path ∈ denied w)); split; congruence.
Qed.

Lemma mkdirs_no_space (ps : list string) (w : world) :
  fst (mkdirs ps w) <> Raises NoSpaceLeft.
Proof.
  revert w. induction ps as [|p rest IH]; intros w; simpl; [discriminate|].
  unfold bind, mkdir_exist_ok.
  destruct (lookup w p) as [[|]|]; simpl; try discriminate; try apply IH.
  destruct (bool_decide (p ∈ denied w)); simpl; [discriminate|apply IH].
Qed.

(** The first write to a file just opened. *)
Lemma write_fresh (path data : string) (w : world) :
  nodes w !! path = Some (File EmptyString) ->
  (fst (write path data w) = Returns tt /\
   nodes (snd (write path data w)) !! path = Some (File data))
  \/
  (fst (write path data w) = Raises NoSpaceLeft /\
   exists n, n < String.length data /\
     nodes (snd (write path data w)) !! path = Some (File (substring 0 n data))).
Proof.
  intros Hopen. unfold write. rewrite Hopen.
  destruct (space w) as [n|]; simpl.
  - destruct (String.length data <=? n)%nat eqn:Hfit; simpl.
    + left. split; [reflexivity|]. apply lookup_insert_eq.
    + right. split; [reflexivity|]. exists n. split.
      * apply Nat.leb_gt in Hfit. exact Hfit.
      * apply lookup_insert_eq.
  - left. split; [reflexivity|]. apply lookup_insert_eq.
Qed.

End FsFacts.

(** ** The exporter *)

Section GgufFacts.
Import Fs.

(** The banner and the closing messages do not touch the file system, and
    neither [--adapter] nor [--base_model] reaches it. *)
Lemma main_touch (args : Gguf.Args) (p : Gguf.Process) :
  fst (Gguf.main args p) = fst (Gguf.touch (Gguf.output args) (Gguf.os p)) /\
  Gguf.os (snd (Gguf.main args p)) = snd (Gguf.touch (Gguf.output args) (Gguf.os p)).
Proof.
  unfold Gguf.main, Gguf.touch, bind, Gguf.eprint, Gguf.print, modify, Gguf.syscall, ret.
  simpl.
  destruct (nonempty (dirname (Gguf.output args))); simpl.
  - destruct (makedirs (dirname (Gguf.output args)) (Gguf.os p)) as [[[]|e] w1]; simpl; [|auto].
    destruct (open_w (Gguf.output args) w1) as [[[]|e] w2]; simpl; [|auto].
    destruct (write (Gguf.output args) Gguf.mock_data w2) as [[[]|e] w3]; simpl; auto.
  - destruct (open_w (Gguf.output args) (Gguf.os p)) as [[[]|e] w2]; simpl; [|auto].
    destruct (write (Gguf.output args) Gguf.mock_data w2) as [[[]|e] w3]; simpl; auto.
Qed.

(** After the directory step, [touch] is [open] followed by [write]. *)
Lemma open_then_write (out : string) (w : world) :
  (fst ((open_w out ;; write out Gguf.mock_data)%eff w) = Returns tt ->
   lookup (snd ((open_w out ;; write out Gguf.mock_data)%eff w)) out
   = Some (File Gguf.mock_data)) /\
  (fst ((open_w out ;; write out Gguf.mock_data)%eff w) = Raises NoSpaceLeft ->
   exists n, n < String.length Gguf.mock_data /\
     lookup (snd ((open_w out ;; write out Gguf.mock_data)%eff w)) out
     = Some (File (substring 0 n Gguf.mock_data))).
Proof.
  unfold bind.
  destruct (open_w out w) as [[[]|e] w2] eqn:Hopen.
  - apply open_w_returns in Hopen as [-> Hall].
    unfold lookup. rewrite Hall.
    destruct (write_fresh out Gguf.mock_data (with_nodes (insert out (File EmptyString)) w))
      as [[Hret Hfile]|[Hraise (n & Hn & Hfile)]].
    { simpl. apply lookup_insert_eq. }
    + split; intros H; [exact Hfile|congruence].
    + split; intros H; [congruence|]. exists n. split; [exact Hn|exact Hfile].
  - apply open_w_raises in Hopen as [-> Hne]. simpl.
    split; intros H; [discriminate|]. congruence.
Qed.

Lemma touch_returns (out : string) (w : world) :
  fst (Gguf.touch out w) = Returns tt ->
  lookup (snd (Gguf.touch out w)) out = Some (File Gguf.mock_data).
Proof.
  unfold Gguf.touch. rewrite bind_run.
  destruct (nonempty (dirname out)).
  - destruct (makedirs (dirname out) w) as [[[]|e] w1]; [|discriminate].
    apply (proj1 (open_then_write out w1)).
  - unfold ret. apply (proj1 (open_then_write out w)).
Qed.

Lemma touch_no_space (out : string) (w : world) :
  fst (Gguf.touch out w) = Raises NoSpaceLeft ->
  exists n, n < String.length Gguf.mock_data /\
    lookup (snd (Gguf.touch out w)) out = Some (File (substring 0 n Gguf.mock_data)).
Proof.
  unfold Gguf.touch. rewrite bind_run.
  destruct (nonempty (dirname out)).
  - pose proof (mkdirs_no_space (prefixes (dirname out)) w) as Hdirs.
    unfold makedirs.
    destruct (mkdirs (prefixes (dirname out)) w) as [[[]|e] w1]; simpl in Hdirs.
    + apply (proj2 (open_then_write out w1)).
    + simpl. intros H. congruence.
  - unfold ret. apply (proj2 (open_then_write out w)).
Qed.

End GgufFacts.

Section GgufClaims.
Import Fs.

(** C1, as stated, fails: the adapter was trained against Phi-3, the export
    is asked to merge it into a Llama base model, nothing was at the output
    path, and the run ends normally with the file written there. *)
Lemma mismatched_export_succeeds :
  Gguf.exports Gguf.export_against_llama Gguf.phi3_adapter /\
  Gguf.trained_against Gguf.phi3_adapter <> Gguf.base_model Gguf.export_against_llama /\
  lookup Gguf.empty_disk (Gguf.output Gguf.export_against_llama) = None /\
  fst (Gguf.main Gguf.export_against_llama (Gguf.fresh Gguf.empty_disk)) = Returns tt /\
  lookup (Gguf.os (snd (Gguf.main Gguf.export_against_llama (Gguf.fresh Gguf.empty_disk))))
         (Gguf.output Gguf.export_against_llama)
  = Some (File "GGUF_MOCK_DATA").
Proof.
  split; [reflexivity|]. split; [discriminate|].
  split; [reflexivity|]. split; vm_compute; reflexivity.
Qed.

(** C1 (amended): for every export invocation whose AdapterArtifact records
    a base model other than the one given by [--base_model], the exporter
    does exactly what it does for the matching identifier (same outcome, same
    file system): it makes no identity check, and whenever the run returns
    the placeholder file is at the requested path. *)
Theorem export_makes_no_identity_check
    (art : Gguf.AdapterArtifact) (args : Gguf.Args) (p : Gguf.Process) :
  Gguf.exports args art ->
  Gguf.trained_against art <> Gguf.base_model args ->
  fst (Gguf.main args p)
  = fst (Gguf.main {| Gguf.adapter := Gguf.adapter args;
                      Gguf.base_model := Gguf.trained_against art;
                      Gguf.output := Gguf.output args |} p) /\
  Gguf.os (snd (Gguf.main args p))
  = Gguf.os (snd (Gguf.main {| Gguf.adapter := Gguf.adapter args;
                               Gguf.base_model := Gguf.trained_against art;
                               Gguf.output := Gguf.output args |} p)) /\
  (fst (Gguf.main args p) = Returns tt ->
   lookup (Gguf.os (snd (Gguf.main args p))) (Gguf.output args)
   = Some (File Gguf.mock_data)).
Proof.
  intros _ _.
  destruct (main_touch args p) as [Hres Hos].
  destruct (main_touch {| Gguf.adapter := Gguf.adapter args;
                          Gguf.base_model := Gguf.trained_against art;
                          Gguf.output := Gguf.output args |} p) as [Hres' Hos'].
  simpl in Hres', Hos'.
  split; [congruence|]. split; [congruence|].
  rewrite Hres, Hos. apply touch_returns.
Qed.

Lemma export_makes_no_identity_check_witness :
  fst (Gguf.main Gguf.export_against_llama (Gguf.fresh Gguf.empty_disk))
  = fst (Gguf.main Gguf.export_against_phi3 (Gguf.fresh Gguf.empty_disk)) /\
  Gguf.os (snd (Gguf.main Gguf.export_against_llama (Gguf.fresh Gguf.empty_disk)))
  = Gguf.os (snd (Gguf.main Gguf.export_against_phi3 (Gguf.fresh Gguf.empty_disk))) /\
  (fst (Gguf.main Gguf.export_against_llama (Gguf.fresh Gguf.empty_disk)) = Returns tt ->
   lookup (Gguf.os (snd (Gguf.main Gguf.export_against_llama (Gguf.fresh Gguf.empty_disk))))
          (Gguf.output Gguf.export_against_llama)
   = Some (File Gguf.mock_data)).
Proof.
  apply (export_makes_no_identity_check
           Gguf.phi3_adapter Gguf.export_against_llama (Gguf.fresh Gguf.empty_disk)).
  - reflexivity.
  - discriminate.
Defined.

(** C3, as stated, fails: the device accepts five bytes, the write fails,
    and the first five bytes are left at the requested output path. *)
Lemma failed_export_leaves_partial_file :
  fst (Gguf.main Gguf.export_against_phi3 (Gguf.fresh Gguf.nearly_full_disk))
  = Raises NoSpaceLeft /\
  lookup (Gguf.os (snd (Gguf.main Gguf.export_against_phi3
                          (Gguf.fresh Gguf.nearly_full_disk))))
         (Gguf.output Gguf.export_against_phi3)
  = Some (File "GGUF_").
Proof. split; vm_compute; reflexivity. Qed.

(** C3 (amended): a successful export leaves exactly one file at the
    requested output path, holding the placeholder bytes; the exporter
    writes in place, so a run whose write fails leaves the file at the
    requested path with the bytes written so far. *)
Theorem export_writes_in_place (args : Gguf.Args) (p : Gguf.Process) :
  (fst (Gguf.main args p) = Returns tt ->
   lookup (Gguf.os (snd (Gguf.main args p))) (Gguf.output args)
   = Some (File Gguf.mock_data)) /\
  (fst (Gguf.main args p) = Raises NoSpaceLeft ->
   exists n, n < String.length Gguf.mock_data /\
     lookup (Gguf.os (snd (Gguf.main args p))) (Gguf.output args)
     = Some (File (substring 0 n Gguf.mock_data))).
Proof.
  destruct (main_touch args p) as [Hres Hos]. rewrite Hres, Hos.
  split; [apply touch_returns|apply touch_no_space].
Qed.

Lemma export_writes_in_place_witness :
  lookup (Gguf.os (snd (Gguf.main Gguf.export_against_phi3 (Gguf.fresh Gguf.empty_disk))))
         (Gguf.output Gguf.export_against_phi3)
  = Some (File Gguf.mock_data) /\
  exists n, n < String.length Gguf.mock_data /\
    lookup (Gguf.os (snd (Gguf.main Gguf.export_against_phi3
                            (Gguf.fresh Gguf.nearly_full_disk))))
           (Gguf.output Gguf.export_against_phi3)
    = Some (File (substring 0 n Gguf.mock_data)).
Proof.
  split.
  - apply (proj1 (export_writes_in_place
                    Gguf.export_against_phi3 (Gguf.fresh Gguf.empty_disk))).
    vm_compute. reflexivity.
  - apply (proj2 (export_writes_in_place
                    Gguf.export_against_phi3 (Gguf.fresh Gguf.nearly_full_disk))).
    vm_compute. reflexivity.
Defined.

(** C10: the bytes the exporter writes do not depend on [--adapter] or
    [--base_model]: any two invocations that return leave the same content
    at their output paths, and two invocations that differ only in the
    adapter and the base model end alike and leave the same file system. *)
Theorem exported_bytes_ignore_adapter_and_base_model
    (a1 a2 : Gguf.Args) (p1 p2 : Gguf.Process) :
  (fst (Gguf.main a1 p1) = Returns tt ->
   fst (Gguf.main a2 p2) = Returns tt ->
   lookup (Gguf.os (snd (Gguf.main a1 p1))) (Gguf.output a1) = Some (File Gguf.mock_data) /\
   lookup (Gguf.os (snd (Gguf.main a2 p2))) (Gguf.output a2) = Some (File Gguf.mock_data)) /\
  (Gguf.output a1 = Gguf.output a2 ->
   Gguf.os p1 = Gguf.os p2 ->
   fst (Gguf.main a1 p1) = fst (Gguf.main a2 p2) /\
   Gguf.os (snd (Gguf.main a1 p1)) = Gguf.os (snd (Gguf.main a2 p2))).
Proof.
  destruct (main_touch a1 p1) as [Hres1 Hos1].
  destruct (main_touch a2 p2) as [Hres2 Hos2].
  split.
  - rewrite Hres1, Hres2, Hos1, Hos2. intros H1 H2.
    split; apply touch_returns; assumption.
  - intros Hout Hworld. rewrite Hres1, Hres2, Hos1, Hos2, Hout, Hworld.
    split; reflexivity.
Qed.

Lemma exported_bytes_ignore_adapter_and_base_model_witness :
  (lookup (Gguf.os (snd (Gguf.main Gguf.export_against_llama (Gguf.fresh Gguf.empty_disk))))
          (Gguf.output Gguf.export_against_llama) = Some (File Gguf.mock_data) /\
   lookup (Gguf.os (snd (Gguf.main Gguf.export_against_phi3 (Gguf.fresh Gguf.empty_disk))))
          (Gguf.output Gguf.export_against_phi3) = Some (File Gguf.mock_data)) /\
  (fst (Gguf.main Gguf.export_against_llama (Gguf.fresh Gguf.nearly_full_disk))
   = fst (Gguf.main Gguf.export_against_phi3 (Gguf.fresh Gguf.nearly_full_disk)) /\
   Gguf.os (snd (Gguf.main Gguf.export_against_llama (Gguf.fresh Gguf.nearly_full_disk)))
   = Gguf.os (snd (Gguf.main Gguf.export_against_phi3 (Gguf.fresh Gguf.nearly_full_disk)))).
Proof.
  split.
  - apply (proj1 (exported_bytes_ignore_adapter_and_base_model
                    Gguf.export_against_llama Gguf.export_against_phi3
                    (Gguf.fresh Gguf.empty_disk) (Gguf.fresh Gguf.empty_disk)));
      vm_compute; reflexivity.
  - apply (proj2 (exported_bytes_ignore_adapter_and_base_model
                    Gguf.export_against_llama Gguf.export_against_phi3
                    (Gguf.fresh Gguf.nearly_full_disk) (Gguf.fresh Gguf.nearly_full_disk)));
      reflexivity.
Defined.

End GgufClaims.

(** ** The trainer *)

Section LoraFacts.
Import Lora.
Variable rt : Runtime.

(** One library call: the attempt is recorded, then it returns or raises. *)
Ltac run_call :=
  match goal with
  | |- context [rt ?c ?w] =>
      let e := fresh "e" in
      let w' := fresh "w" in
      let H := fresh "Hcall" in
      destruct (rt c w) as [[[]|e] w'] eqn:H; simpl
  end.

Ltac stopped_after k :=
  exists k; split;
  [ reflexivity
  | first
      [ left; split; reflexivity
      | right; do 3 eexists; split; [reflexivity|]; split; [lia|];
        match goal with
        | H : rt _ _ = (Raises _, _) |- _ => rewrite H; split; reflexivity
        end ] ].

Ltac stopped_within fuel k :=
  lazymatch fuel with
  | O => fail "no prefix of the script matches"
  | S ?fuel' => first [ stopped_after k | stopped_within fuel' (S k) ]
  end.

(** The trace of a run is a prefix of [script]: the whole of it when the run
    returns, and otherwise it ends with the library call that raised. *)
Lemma main_trace (args : Args) (w : Fs.world) :
  exists k,
    trace (snd (main rt args (start w))) = take k (script args) /\
    ((fst (main rt args (start w)) = Returns tt /\ k = length (script args))
     \/
     (exists c w' e,
        script args !! pred k = Some (Called c) /\ 0 < k /\
        fst (rt c w') = Raises e /\
        fst (main rt args (start w)) = Raises e)).
Proof.
  unfold main, print, invoke, bind, modify, log, start. simpl.
  repeat run_call; stopped_within 24 1.
Qed.

End LoraFacts.

Section LoraOrder.
Import Lora.

(** In any prefix of the script, an event at position [i] has every earlier
    position of the script before it. *)
Lemma prefix_earlier (args : Args) (k i j : nat) (a b : event) :
  take k (script args) !! i = Some b ->
  j < i ->
  script args !! j = Some a ->
  exists j', j' < i /\ take k (script args) !! j' = Some a.
Proof.
  intros Hi Hlt Hj. apply lookup_take_Some in Hi as [_ Hik].
  exists j. split; [exact Hlt|].
  rewrite lookup_take_lt by lia. exact Hj.
Qed.

Ltac scan_script H i fuel :=
  lazymatch fuel with
  | O => try discriminate H
  | S ?fuel' => destruct i as [|i]; [try discriminate H | scan_script H i fuel']
  end.

Ltac position_in_script H i :=
  apply lookup_take_Some in H as [H _];
  scan_script H i 23.

(** The dataset is opened only after the attempt to load the weights. *)
Lemma dataset_after_weights (rt : Runtime) (args : Args) (w : Fs.world) (d : string) :
  happens_before (weights_load args) (Called (load_dataset d))
    (trace (snd (main rt args (start w)))).
Proof.
  destruct (main_trace rt args w) as (k & -> & _).
  intros i Hi.
  assert (i = 13) as ->.
  { position_in_script Hi i. reflexivity. }
  apply (prefix_earlier args k 13 6 _ _ Hi); [lia|reflexivity].
Qed.

(** The runtime is asked to report the trainable parameters after the
    adapter is attached and before the training loop starts. *)
Lemma report_between_attach_and_train (rt : Runtime) (args : Args) (w : Fs.world) :
  happens_before (Called (get_peft_model peft_config)) (Called print_trainable_parameters)
    (trace (snd (main rt args (start w)))) /\
  happens_before (Called print_trainable_parameters) (Called trainer_train)
    (trace (snd (main rt args (start w)))).
Proof.
  destruct (main_trace rt args w) as (k & -> & _).
  split; intros i Hi.
  - assert (i = 11) as ->.
    { position_in_script Hi i. reflexivity. }
    apply (prefix_earlier args k 11 10 _ _ Hi); [lia|reflexivity].
  - assert (i = 18) as ->.
    { position_in_script Hi i. reflexivity. }
    apply (prefix_earlier args k 18 11 _ _ Hi); [lia|reflexivity].
Qed.

(** C2, as stated, fails: the dataset file holds no record, the tokenizer
    and the weights are loaded all the same (the load is the seventh event of
    the run), and the run stops only when the dataset loader of the runtime
    refuses the file, seven events later. *)
Lemma empty_dataset_still_loads_weights :
  empty_dataset disk_with_empty_dataset (dataset train_on_empty) /\
  fst (main strict_loader train_on_empty (start disk_with_empty_dataset))
  = Raises "empty dataset" /\
  trace (snd (main strict_loader train_on_empty (start disk_with_empty_dataset))) !! 6
  = Some (weights_load train_on_empty) /\
  trace (snd (main strict_loader train_on_empty (start disk_with_empty_dataset))) !! 13
  = Some (Called (load_dataset "data/train.jsonl")).
Proof. repeat split; vm_compute; reflexivity. Qed.

(** C2 (amended): for every training run whose tokenizer and quantization
    set-up succeed, the trainer attempts to load the base-model weights,
    whatever the dataset holds, and it opens the dataset only after that
    attempt: the trainer itself never checks the dataset for emptiness. *)
Theorem weights_load_precedes_dataset
    (rt : Runtime) (args : Args) (w : Fs.world) :
  returns rt (AutoTokenizer_from_pretrained (base_model args)) ->
  returns rt Set_pad_token_to_eos_token ->
  returns rt (Make_BitsAndBytesConfig bnb_config) ->
  In (weights_load args) (trace (snd (main rt args (start w)))) /\
  forall d, happens_before (weights_load args) (Called (load_dataset d))
              (trace (snd (main rt args (start w)))).
Proof.
  intros Htok Hpad Hbnb. split; [|intros d; apply dataset_after_weights].
  destruct (main_trace rt args w) as (k & -> & Hend).
  assert (6 < k) as Hk.
  { destruct Hend as [[_ ->]|(c & w' & e & Hlast & Hpos & Hraise & _)]; [simpl; lia|].
    destruct k as [|[|[|[|[|[|[|k]]]]]]]; simpl in Hlast;
      try lia; try discriminate Hlast.
    - injection Hlast as <-. rewrite Htok in Hraise. discriminate.
    - injection Hlast as <-. rewrite Hpad in Hraise. discriminate.
    - injection Hlast as <-. rewrite Hbnb in Hraise. discriminate. }
  apply list_elem_of_In, list_elem_of_lookup. exists 6.
  rewrite lookup_take_lt by lia. reflexivity.
Qed.

Lemma weights_load_precedes_dataset_witness :
  In (weights_load train_on_empty)
     (trace (snd (main strict_loader train_on_empty (start disk_with_empty_dataset)))) /\
  forall d, happens_before (weights_load train_on_empty) (Called (load_dataset d))
              (trace (snd (main strict_loader train_on_empty
                             (start disk_with_empty_dataset)))).
Proof.
  apply (weights_load_precedes_dataset
           strict_loader train_on_empty disk_with_empty_dataset);
    intros w; reflexivity.
Defined.

End LoraOrder.

(** ** The collector *)

Section GenerateFacts.
Import Json Generate.
Variable svc : Service.

Lemma scored_failure_of (prompt : string) (r : reply) :
  match failure_of r with
  | Some _ => scored prompt r = None
  | None => exists fields, scored prompt r = Some (record_of prompt fields)
  end.
Proof.
  destruct r as [cause| |status [data|]]; simpl; try reflexivity;
    destruct (http_error status); try reflexivity;
    destruct data; try reflexivity.
  eexists. reflexivity.
Qed.

Lemma scoring_fails_scored (prompt : string) (r : reply) :
  scoring_fails r = true <-> scored prompt r = None.
Proof.
  destruct r as [cause| |status [data|]]; simpl; try tauto;
    destruct (http_error status); simpl; try tauto;
    destruct data; simpl; try tauto; split; discriminate.
Qed.

Lemma scoring_fails_failure_of (r : reply) :
  scoring_fails r = true <-> exists e, failure_of r = Some e.
Proof.
  destruct r as [cause| |status body]; simpl.
  - split; eauto.
  - split; eauto.
  - destruct (http_error status); simpl; [split; eauto|].
    destruct body as [data|]; [|split; eauto].
    destruct data; try solve [split; eauto].
    split; [discriminate|intros [e He]; discriminate].
Qed.

(** One call of [generate_sample]: it never raises, it makes one request,
    and it prints one line exactly when the scoring failed. *)
Lemma generate_sample_run (prompt : string) (p : Process) :
  generate_sample svc prompt p =
  (Returns (scored prompt (svc (requests p) prompt)),
   {| requests := S (requests p);
      stdout := stdout p ++ match failure_of (svc (requests p) prompt) with
                            | Some e => [FailedToScore e]
                            | None => []
                            end;
      os := os p |}).
Proof.
  unfold generate_sample, try_except, bind, requests_post.
  destruct (svc (requests p) prompt) as [cause| |status [data|]]; simpl; try reflexivity;
    unfold raise_for_status, http_error;
    destruct ((400 <=? status)%Z && (status <? 600)%Z); simpl; try reflexivity;
    destruct data; simpl; rewrite ?app_nil_r; reflexivity.
Qed.

(** The whole loop. *)
Lemma collect_run (prompts : list string) (results : list Sample) (p : Process) :
  collect svc prompts results p =
  (Returns (results ++ dataset_of svc (requests p) prompts),
   {| requests := requests p + length prompts;
      stdout := stdout p ++ failures_of svc (requests p) prompts;
      os := os p |}).
Proof.
  revert results p. induction prompts as [|prompt rest IH]; intros results p.
  - simpl. unfold ret. rewrite !app_nil_r, Nat.add_0_r. destruct p; reflexivity.
  - cbn [collect]. rewrite bind_run, generate_sample_run.
    cbn [dataset_of failures_of length].
    pose proof (scored_failure_of prompt (svc (requests p) prompt)) as Hsc.
    destruct (failure_of (svc (requests p) prompt)) as [e|].
    + rewrite Hsc, IH. cbn [requests stdout os].
      rewrite <- app_assoc, Nat.add_succ_r. reflexivity.
    + destruct Hsc as [fields ->]. rewrite IH. cbn [requests stdout os].
      rewrite <- ?app_assoc, ?app_nil_r, Nat.add_succ_r. reflexivity.
Qed.

Lemma dataset_of_app (n : nat) (l1 l2 : list string) :
  dataset_of svc n (l1 ++ l2) = dataset_of svc n l1 ++ dataset_of svc (n + length l1) l2.
Proof.
  revert n. induction l1 as [|prompt rest IH]; intros n; simpl.
  - rewrite Nat.add_0_r. reflexivity.
  - rewrite IH, Nat.add_succ_r.
    destruct (scored prompt (svc n prompt)); reflexivity.
Qed.

Lemma failures_of_app (n : nat) (l1 l2 : list string) :
  failures_of svc n (l1 ++ l2) = failures_of svc n l1 ++ failures_of svc (n + length l1) l2.
Proof.
  revert n. induction l1 as [|prompt rest IH]; intros n; simpl.
  - rewrite Nat.add_0_r. reflexivity.
  - rewrite IH, Nat.add_succ_r.
    destruct (failure_of (svc n prompt)); reflexivity.
Qed.

Lemma scored_instruction (prompt : string) (r : reply) (s : Sample) :
  scored prompt r = Some s -> instruction s = prompt.
Proof.
  destruct r as [cause| |status [data|]]; simpl; try discriminate.
  destruct data; try discriminate.
  destruct (http_error status); [discriminate|].
  intros [= <-]. reflexivity.
Qed.

Lemma dataset_of_sublist (n : nat) (prompts : list string) :
  sublist (map instruction (dataset_of svc n prompts)) prompts.
Proof.
  revert n. induction prompts as [|prompt rest IH]; intros n; simpl.
  - constructor.
  - destruct (scored prompt (svc n prompt)) as [s|] eqn:Hs.
    + simpl. rewrite (scored_instruction _ _ _ Hs). apply sublist_skip, IH.
    + apply sublist_cons, IH.
Qed.

Lemma dataset_of_position (n : nat) (prompts : list string) (i : nat) (s : Sample) :
  dataset_of svc n prompts !! i = Some s ->
  exists j, i <= j /\ prompts !! j = Some (instruction s).
Proof.
  revert n i. induction prompts as [|prompt rest IH]; intros n i; simpl; [discriminate|].
  destruct (scored prompt (svc n prompt)) as [s0|] eqn:Hs.
  - destruct i as [|i]; simpl.
    + intros [= <-]. exists 0. split; [lia|].
      rewrite (scored_instruction _ _ _ Hs). reflexivity.
    + intros Hi. destruct (IH _ _ Hi) as (j & Hj & Hlook).
      exists (S j). split; [lia|exact Hlook].
  - intros Hi. destruct (IH _ _ Hi) as (j & Hj & Hlook).
    exists (S j). split; [lia|exact Hlook].
Qed.

Lemma length_list_mul {A} (l : list A) (n : Z) :
  length (list_mul l n) = Z.to_nat n * length l.
Proof.
  unfold list_mul. induction (Z.to_nat n) as [|k IH]; simpl; [reflexivity|].
  rewrite length_app, IH. reflexivity.
Qed.

Lemma length_seed_prompts (samples : Z) :
  length (seed_prompts samples) = Z.to_nat (samples / 5) * 5.
Proof. unfold seed_prompts. rewrite length_list_mul. reflexivity. Qed.

Lemma write_lines_requests (path : string) (results : list Sample) (p : Process) :
  requests (snd (write_lines path results p)) = requests p.
Proof.
  revert p. induction results as [|r0 rest IH]; intros p; simpl; [reflexivity|].
  rewrite bind_run. unfold syscall.
  destruct (Fs.write path _ (os p)) as [[[]|e] w]; simpl; [|reflexivity].
  rewrite IH. reflexivity.
Qed.

End GenerateFacts.

Section GenerateMain.
Import Json Generate.

Lemma dict_get_absent (fields : list (string * json)) (key : string) (dflt : json) :
  has_key fields key = false -> dict_get fields key dflt = dflt.
Proof.
  induction fields as [|[k v] rest IH]; simpl; [reflexivity|].
  destruct (String.eqb k key); simpl; [discriminate|exact IH].
Qed.

(** [main] step by step: the banner, the loop, then the output file. *)
Lemma main_run (svc : Service) (args : Args) (p : Process) :
  main svc args p =
  let prompts := seed_prompts (samples args) in
  let results := dataset_of svc (requests p) prompts in
  let printed :=
    (stdout p ++ [Line ("Generating " +:+ pretty (length prompts)
                        +:+ " labelled samples using LokaFlow endpoint...")])
    ++ failures_of svc (requests p) prompts in
  match Fs.open_w (output args) (os p) with
  | (Raises e, w) =>
      (Raises (OSError e),
       {| requests := requests p + length prompts; stdout := printed; os := w |})
  | (Returns _, w) =>
      match write_lines (output args) results
              {| requests := requests p + length prompts; stdout := printed; os := w |} with
      | (Returns _, q) =>
          (Returns tt,
           {| requests := requests q;
              stdout := stdout q ++ [Line ("Successfully saved " +:+ pretty (length results)
                                           +:+ " samples to " +:+ output args)];
              os := os q |})
      | (Raises e, q) => (Raises e, q)
      end
  end.
Proof.
  unfold main. cbv zeta. rewrite bind_run. unfold print at 1. unfold modify.
  rewrite bind_run, collect_run. cbn [requests stdout os app].
  rewrite bind_run. unfold syscall. cbn [requests stdout os].
  destruct (Fs.open_w (output args) (os p)) as [[[]|e] w]; [|reflexivity].
  rewrite bind_run.
  destruct (write_lines _ _ _) as [[[]|e] q]; reflexivity.
Qed.

(** Every prompt of [seed_prompts] is requested, whatever happens to the
    output file afterwards. *)
Lemma main_requests (svc : Service) (args : Args) (p : Process) :
  requests (snd (main svc args p)) = requests p + length (seed_prompts (samples args)).
Proof.
  rewrite main_run. cbv zeta.
  destruct (Fs.open_w (output args) (os p)) as [[[]|e] w]; [|reflexivity].
  match goal with
  | |- context [write_lines ?path ?rs ?q] =>
      pose proof (write_lines_requests path rs q) as Hw;
      destruct (write_lines path rs q) as [[[]|e] q']
  end; simpl in Hw |- *; exact Hw.
Qed.

(** Without prompts, [main] only opens the output file. *)
Lemma main_without_prompts (svc : Service) (args : Args) (p : Process) :
  seed_prompts (samples args) = [] ->
  fst (main svc args p) = Returns tt ->
  Fs.lookup (os (snd (main svc args p))) (output args) = Some (Fs.File EmptyString).
Proof.
  intros Hnone. rewrite main_run. cbv zeta. rewrite Hnone. cbn [dataset_of write_lines ret].
  destruct (Fs.open_w (output args) (os p)) as [[[]|e] w] eqn:Hopen;
    [|cbn [fst]; discriminate].
  apply open_w_returns in Hopen as [-> Hall].
  cbn [fst snd os]. intros _. unfold Fs.lookup. rewrite Hall. simpl. apply lookup_insert_eq.
Qed.

End GenerateMain.

Section GenerateClaims.
Import Json Generate.

Lemma string_app_assoc (a b c : string) : (a +:+ b) +:+ c = a +:+ (b +:+ c).
Proof.
  induction a as [|x a IH]; [reflexivity|].
  change (String x ((a +:+ b) +:+ c) = String x (a +:+ (b +:+ c))).
  f_equal. exact IH.
Qed.

(** C4, as stated, fails: the service answers 300, which is not a 2xx
    status, with an empty JSON object; nothing is printed and the prompt is
    kept, scored with the default values. *)
Lemma status_300_is_scored :
  ~ (200 <= 300 < 300)%Z /\
  multiple_choices 0 "Hello!" = Answered 300 (Some (JObj [])) /\
  collect multiple_choices ["Hello!"] [] (fresh empty_disk)
  = (Returns [ {| instruction := "Hello!";
                  complexity_score := JNum "0.0";
                  tier := JStr "local";
                  target := "{" +:+ dquote +:+ "score" +:+ dquote +:+ ": 0.0, "
                            +:+ dquote +:+ "reasoning" +:+ dquote +:+ ": "
                            +:+ dquote +:+ "Unknown" +:+ dquote +:+ "}" |} ],
     {| requests := 1; stdout := []; os := empty_disk |}).
Proof. split; [lia|]. split; reflexivity. Qed.

(** C4 (amended): for every prompt sequence, if scoring one prompt fails (no
    connection, timeout, a 4xx or 5xx status, or a body that is not a JSON
    object) the collector drops only that prompt, prints the failure
    without raising, and goes on to request every remaining prompt. *)
Theorem failed_prompt_is_dropped
    (svc : Service) (before after : list string) (prompt : string)
    (results : list Sample) (p : Process) :
  scoring_fails (svc (requests p + length before) prompt) = true ->
  fst (collect svc (before ++ prompt :: after) results p)
  = Returns (results ++ dataset_of svc (requests p) before
                     ++ dataset_of svc (requests p + length before + 1) after) /\
  (exists e, failure_of (svc (requests p + length before) prompt) = Some e /\
     In (FailedToScore e) (stdout (snd (collect svc (before ++ prompt :: after) results p)))) /\
  requests (snd (collect svc (before ++ prompt :: after) results p))
  = requests p + length before + 1 + length after.
Proof.
  intros Hfail. rewrite collect_run. cbn [fst snd requests stdout].
  rewrite dataset_of_app, failures_of_app. cbn [dataset_of failures_of].
  apply (scoring_fails_scored prompt) in Hfail as Hdrop. rewrite Hdrop.
  apply scoring_fails_failure_of in Hfail as [e He]. rewrite He.
  replace (S (requests p + length before)) with (requests p + length before + 1) by lia.
  split; [reflexivity|]. split.
  - exists e. split; [reflexivity|].
    apply in_or_app. right. apply in_or_app. right. left. reflexivity.
  - rewrite length_app. simpl. lia.
Qed.

Lemma failed_prompt_is_dropped_witness :
  fst (collect greeter (["Hello!"] ++ "What is the capital of France?" :: ["Hello!"])
         [] (fresh empty_disk))
  = Returns ([] ++ dataset_of greeter 0 ["Hello!"] ++ dataset_of greeter (0 + 1 + 1) ["Hello!"]) /\
  (exists e, failure_of (greeter (0 + 1) "What is the capital of France?") = Some e /\
     In (FailedToScore e)
        (stdout (snd (collect greeter
                        (["Hello!"] ++ "What is the capital of France?" :: ["Hello!"])
                        [] (fresh empty_disk))))) /\
  requests (snd (collect greeter
                   (["Hello!"] ++ "What is the capital of France?" :: ["Hello!"])
                   [] (fresh empty_disk)))
  = 0 + 1 + 1 + 1.
Proof.
  apply (failed_prompt_is_dropped greeter ["Hello!"] ["Hello!"]
           "What is the capital of France?" [] (fresh empty_disk)).
  reflexivity.
Defined.

(** C5: for every successful (2xx) response that decodes to an object,
    [generate_sample] returns a record with [complexity_score] taken from
    [complexityScore] (0.0 if absent), [tier] from [routingTier] ("local" if
    absent) and [target] serializing score and reasoning ("Unknown" if
    absent); a missing field is never an error. *)
Theorem successful_response_yields_record
    (svc : Service) (prompt : string) (p : Process)
    (status : Z) (fields : list (string * json)) :
  svc (requests p) prompt = Answered status (Some (JObj fields)) ->
  (200 <= status < 300)%Z ->
  fst (generate_sample svc prompt p)
  = Returns (Some
      {| instruction := prompt;
         complexity_score := dict_get fields "complexityScore" (JNum "0.0");
         tier := dict_get fields "routingTier" (JStr "local");
         target := json_dumps
                     (JObj [ ("score", dict_get fields "complexityScore" (JNum "0.0"));
                             ("reasoning", dict_get fields "reasoning" (JStr "Unknown")) ]) |}) /\
  (has_key fields "complexityScore" = false ->
   dict_get fields "complexityScore" (JNum "0.0") = JNum "0.0") /\
  (has_key fields "routingTier" = false ->
   dict_get fields "routingTier" (JStr "local") = JStr "local") /\
  (has_key fields "reasoning" = false ->
   dict_get fields "reasoning" (JStr "Unknown") = JStr "Unknown").
Proof.
  intros Hreply Hstatus. split.
  - rewrite generate_sample_run, Hreply. cbn [fst scored].
    unfold http_error.
    replace ((400 <=? status)%Z && (status <? 600)%Z) with false
      by (symmetry; apply andb_false_iff; left; apply Z.leb_gt; lia).
    reflexivity.
  - repeat split; intros Habsent; apply dict_get_absent; exact Habsent.
Qed.

Lemma successful_response_yields_record_witness :
  fst (generate_sample greeter "Hello!" (fresh empty_disk))
  = Returns (Some
      {| instruction := "Hello!";
         complexity_score := JNum "0.1";
         tier := JStr "local";
         target := "{" +:+ dquote +:+ "score" +:+ dquote +:+ ": 0.1, "
                   +:+ dquote +:+ "reasoning" +:+ dquote +:+ ": "
                   +:+ dquote +:+ "trivial greeting" +:+ dquote +:+ "}" |}).
Proof.
  apply (proj1 (successful_response_yields_record greeter "Hello!" (fresh empty_disk) 200
                  [ ("complexityScore", JNum "0.1");
                    ("routingTier", JStr "local");
                    ("reasoning", JStr "trivial greeting") ]
                  eq_refl ltac:(lia))).
Defined.

(** C6: for all prompt sequences the loop returns a dataset no longer than
    the prompt sequence, whose instructions form an order-preserving
    subsequence of the prompts; the record at position [i] comes from a
    prompt at a position [j >= i]. *)
Theorem collected_dataset_is_subsequence
    (svc : Service) (prompts : list string) (p : Process) :
  exists results,
    fst (collect svc prompts [] p) = Returns results /\
    length results <= length prompts /\
    sublist (map instruction results) prompts /\
    forall i r, results !! i = Some r ->
      exists j, i <= j /\ prompts !! j = Some (instruction r).
Proof.
  exists (dataset_of svc (requests p) prompts).
  split; [rewrite collect_run; reflexivity|].
  pose proof (dataset_of_sublist svc (requests p) prompts) as Hsub.
  split; [|split; [exact Hsub|]].
  - apply sublist_length in Hsub. rewrite length_map in Hsub. exact Hsub.
  - intros i r. apply dataset_of_position.
Qed.

(** C8, as stated, fails for a negative [--samples]: with -5 the formula
    gives -5 prompts, and the collector makes no request at all. *)
Lemma negative_samples_attempt_nothing :
  (5 * (samples negative_request / 5) = -5)%Z /\
  seed_prompts (samples negative_request) = [] /\
  requests (snd (main greeter negative_request (fresh empty_disk))) = 0.
Proof. repeat split; vm_compute; reflexivity. Qed.

(** C8 (amended): for every integer [--samples] the collector requests
    exactly [5 * max 0 (floor (samples / 5))] prompts, the five seed prompts
    repeated; for any value less than 5 (negative ones included) it requests
    none and, when the output can be opened, leaves an empty dataset file;
    the number of requests equals [samples] exactly when [samples] is
    non-negative and divisible by 5. *)
Theorem attempted_prompts (svc : Service) (args : Args) (p : Process) :
  requests (snd (main svc args p))
  = requests p + length (seed_prompts (samples args)) /\
  Z.of_nat (length (seed_prompts (samples args)))
  = (5 * Z.max 0 (samples args / 5))%Z /\
  ((samples args < 5)%Z ->
   seed_prompts (samples args) = [] /\
   (fst (main svc args p) = Returns tt ->
    Fs.lookup (os (snd (main svc args p))) (output args)
    = Some (Fs.File EmptyString))) /\
  (Z.of_nat (length (seed_prompts (samples args))) = samples args
   <-> (0 <= samples args)%Z /\ (samples args mod 5 = 0)%Z).
Proof.
  split; [apply main_requests|].
  split; [rewrite length_seed_prompts; lia|].
  split.
  - intros Hsmall.
    assert (seed_prompts (samples args) = []) as Hnone.
    { apply length_zero_iff_nil. rewrite length_seed_prompts.
      assert (samples args / 5 <= 0)%Z by (apply Z.lt_succ_r, Z.div_lt_upper_bound; lia).
      lia. }
    split; [exact Hnone|]. apply main_without_prompts. exact Hnone.
  - rewrite length_seed_prompts.
    pose proof (Z.div_mod (samples args) 5 ltac:(lia)) as Hdm.
    pose proof (Z.mod_pos_bound (samples args) 5 ltac:(lia)) as Hmod.
    split.
    + intros Heq. assert (0 <= samples args)%Z by lia.
      assert (0 <= samples args / 5)%Z by (apply Z.div_pos; lia). lia.
    + intros [Hpos Hdiv].
      assert (0 <= samples args / 5)%Z by (apply Z.div_pos; lia). lia.
Qed.

Lemma attempted_prompts_witness :
  seed_prompts (samples small_request) = [] /\
  Fs.lookup (os (snd (main greeter small_request (fresh empty_disk)))) (output small_request)
  = Some (Fs.File EmptyString).
Proof.
  destruct (attempted_prompts greeter small_request (fresh empty_disk))
    as (_ & _ & Hsmall & _).
  destruct (Hsmall ltac:(reflexivity)) as [Hnone Hfile].
  split; [exact Hnone|]. apply Hfile. reflexivity.
Defined.

(** C9: in every record a successful [generate_sample] returns, the
    instruction is the prompt verbatim and the score inside the serialized
    target is the record's own [complexity_score]. *)
Theorem target_score_is_complexity_score
    (svc : Service) (prompt : string) (p : Process) (r : Sample) :
  fst (generate_sample svc prompt p) = Returns (Some r) ->
  instruction r = prompt /\
  exists reasoning,
    target r = json_dumps (JObj [ ("score", complexity_score r);
                                  ("reasoning", reasoning) ]) /\
    target r = "{" +:+ dquote +:+ "score" +:+ dquote +:+ ": "
               +:+ json_dumps (complexity_score r) +:+ ", "
               +:+ dquote +:+ "reasoning" +:+ dquote +:+ ": "
               +:+ json_dumps reasoning +:+ "}".
Proof.
  rewrite generate_sample_run. cbn [fst]. intros [= Hscored].
  pose proof (scored_failure_of prompt (svc (requests p) prompt)) as Hcases.
  destruct (failure_of (svc (requests p) prompt)); [congruence|].
  destruct Hcases as [fields Hrec]. rewrite Hrec in Hscored. injection Hscored as <-.
  split; [reflexivity|].
  exists (dict_get fields "reasoning" (JStr "Unknown")).
  split; [reflexivity|].
  cbn [target complexity_score record_of json_dumps map String.concat fst snd].
  rewrite !string_app_assoc. reflexivity.
Qed.

Lemma target_score_is_complexity_score_witness :
  instruction (record_of "Hello!" [ ("complexityScore", JNum "0.1") ]) = "Hello!" /\
  exists reasoning,
    target (record_of "Hello!" [ ("complexityScore", JNum "0.1") ])
    = json_dumps (JObj [ ("score", complexity_score
                                     (record_of "Hello!" [ ("complexityScore", JNum "0.1") ]));
                         ("reasoning", reasoning) ]) /\
    target (record_of "Hello!" [ ("complexityScore", JNum "0.1") ])
    = "{" +:+ dquote +:+ "score" +:+ dquote +:+ ": "
      +:+ json_dumps (complexity_score
                        (record_of "Hello!" [ ("complexityScore", JNum "0.1") ])) +:+ ", "
      +:+ dquote +:+ "reasoning" +:+ dquote +:+ ": "
      +:+ json_dumps reasoning +:+ "}".
Proof.
  apply (target_score_is_complexity_score
           (fun _ _ => Answered 200 (Some (JObj [ ("complexityScore", JNum "0.1") ])))
           "Hello!" (fresh empty_disk)).
  reflexivity.
Defined.

End GenerateClaims.

(** ** Further properties of the trainer *)

Section LoraExtras.
Import Lora.

(** X9: a run that raises stops at the library call that raised: that call is the
    last event of the trace, the trace is the script up to it, and [main]
    raises the exception of the call unchanged. *)
Theorem failure_aborts_the_run (rt : Runtime) (args : Args) (w : Fs.world) (e : string) :
  fst (main rt args (start w)) = Raises e ->
  exists k c w',
    k < length (script args) /\
    trace (snd (main rt args (start w))) = take (S k) (script args) /\
    script args !! k = Some (Called c) /\
    fst (rt c w') = Raises e.
Proof.
  intros Hraise.
  destruct (main_trace rt args w)
    as (k & Htrace & [[Hret _]|(c & w' & e' & Hlast & Hpos & Hcall & Hmain)]).
  - rewrite Hret in Hraise. discriminate.
  - rewrite Hmain in Hraise. injection Hraise as ->.
    destruct k as [|k]; [lia|]. simpl in Hlast.
    exists k, c, w'. split; [eapply lookup_lt_Some; exact Hlast|].
    split; [exact Htrace|]. split; [exact Hlast|exact Hcall].
Qed.

Lemma failure_aborts_the_run_witness :
  exists k c w',
    k < length (script train_on_empty) /\
    trace (snd (main strict_loader train_on_empty (start disk_with_empty_dataset)))
    = take (S k) (script train_on_empty) /\
    script train_on_empty !! k = Some (Called c) /\
    fst (strict_loader c w') = Raises "empty dataset".
Proof.
  apply (failure_aborts_the_run strict_loader train_on_empty disk_with_empty_dataset).
  vm_compute. reflexivity.
Defined.

(** X10: a run returns only after the whole script, closing message included, and
    it does return whenever every library call returns. *)
Theorem run_returns_after_whole_script (rt : Runtime) (args : Args) (w : Fs.world) :
  (fst (main rt args (start w)) = Returns tt ->
   trace (snd (main rt args (start w))) = script args) /\
  ((forall c w', fst (rt c w') = Returns tt) ->
   fst (main rt args (start w)) = Returns tt).
Proof.
  destruct (main_trace rt args w) as (k & Htrace & Hend). split.
  - intros Hret.
    destruct Hend as [[_ ->]|(c & w' & e & _ & _ & _ & Hmain)].
    + rewrite Htrace. apply firstn_all.
    + rewrite Hmain in Hret. discriminate.
  - intros Hall.
    destruct Hend as [[Hret _]|(c & w' & e & _ & _ & Hcall & _)]; [exact Hret|].
    rewrite Hall in Hcall. discriminate.
Qed.

Lemma run_returns_after_whole_script_witness :
  trace (snd (main obliging train_on_empty (start disk_with_empty_dataset)))
  = script train_on_empty /\
  fst (main obliging train_on_empty (start disk_with_empty_dataset)) = Returns tt.
Proof.
  destruct (run_returns_after_whole_script obliging train_on_empty disk_with_empty_dataset)
    as [Htrace Hret].
  split; [apply Htrace; reflexivity|apply Hret; intros c w'; reflexivity].
Defined.

Ltac scan_events H i fuel :=
  lazymatch fuel with
  | O => try discriminate H
  | S ?fuel' => destruct i as [|i]; [try discriminate H | scan_events H i fuel']
  end.

(** X11: nothing is saved before training has returned: the adapter is saved only
    after [trainer.train()] and the message that follows it, the tokenizer
    only after the adapter, and both go to [--output_dir]. *)
Theorem saves_follow_training (rt : Runtime) (args : Args) (w : Fs.world) (d : string) :
  (In (Called (model_save_pretrained d)) (trace (snd (main rt args (start w)))) ->
   d = output_dir args /\
   trace (snd (main rt args (start w))) !! 18 = Some (Called trainer_train) /\
   trace (snd (main rt args (start w))) !! 19
   = Some (Printed ("Saving final adapter to " +:+ output_dir args +:+ "..."))) /\
  (In (Called (tokenizer_save_pretrained d)) (trace (snd (main rt args (start w)))) ->
   d = output_dir args /\
   trace (snd (main rt args (start w))) !! 20
   = Some (Called (model_save_pretrained (output_dir args)))).
Proof.
  destruct (main_trace rt args w) as (k & -> & _).
  split; intros Hin; apply list_elem_of_In, list_elem_of_lookup in Hin as [i Hi];
    pose proof Hi as Hscript; apply lookup_take_Some in Hscript as [Hscript Hik].
  - assert (i = 20 /\ d = output_dir args) as [-> ->].
    { scan_events Hscript i 23. injection Hscript as <-. split; reflexivity. }
    split; [reflexivity|]. split; rewrite lookup_take_lt by lia; reflexivity.
  - assert (i = 21 /\ d = output_dir args) as [-> ->].
    { scan_events Hscript i 23. injection Hscript as <-. split; reflexivity. }
    split; [reflexivity|]. rewrite lookup_take_lt by lia. reflexivity.
Qed.

Lemma saves_follow_training_witness :
  ("adapters/router" = output_dir train_on_empty /\
   trace (snd (main obliging train_on_empty (start disk_with_empty_dataset))) !! 18
   = Some (Called trainer_train) /\
   trace (snd (main obliging train_on_empty (start disk_with_empty_dataset))) !! 19
   = Some (Printed ("Saving final adapter to " +:+ output_dir train_on_empty +:+ "..."))) /\
  ("adapters/router" = output_dir train_on_empty /\
   trace (snd (main obliging train_on_empty (start disk_with_empty_dataset))) !! 20
   = Some (Called (model_save_pretrained (output_dir train_on_empty)))).
Proof.
  destruct (saves_follow_training obliging train_on_empty disk_with_empty_dataset
              "adapters/router") as [Hmodel Htok].
  split; [apply Hmodel|apply Htok]; vm_compute; tauto.
Defined.

(** X12: the Phi-3 rendering does not escape its own turn delimiters: moving the
    text between the end of the instruction and the start of the target
    across a delimiter gives the same training text. *)
Theorem format_instruction_is_ambiguous (a b c : string) :
  format_instruction (a +:+ "<|end|>" +:+ nl +:+ "<|assistant|>" +:+ nl +:+ b) c
  = format_instruction a (b +:+ "<|end|>" +:+ nl +:+ "<|assistant|>" +:+ nl +:+ c).
Proof.
  unfold format_instruction. rewrite !string_app_assoc. reflexivity.
Qed.

End LoraExtras.

(** ** Further properties of the exporter *)

Section FsFrame.
Import Fs.

Lemma lookup_None_nodes (w : world) (p : string) :
  lookup w p = None -> nodes w !! p = None.
Proof. unfold lookup. destruct (all_seps p); [discriminate|tauto]. Qed.

(** [os.makedirs] only adds directories: what exists stays as it is. *)
Lemma mkdirs_preserves (ps : list string) (w : world) (q : string) (x : node) :
  nodes w !! q = Some x -> nodes (snd (mkdirs ps w)) !! q = Some x.
Proof.
  revert w. induction ps as [|p rest IH]; intros w Hq; simpl; [exact Hq|].
  rewrite bind_run. unfold mkdir_exist_ok.
  destruct (lookup w p) as [[|]|] eqn:Hp; simpl; try exact Hq.
  - apply IH. exact Hq.
  - destruct (bool_decide (p ∈ denied w)); simpl; [exact Hq|].
    apply IH. simpl. rewrite lookup_insert_ne; [exact Hq|].
    intros ->. apply lookup_None_nodes in Hp. congruence.
Qed.

Lemma mkdirs_preserves_lookup (ps : list string) (w : world) (q : string) (x : node) :
  lookup w q = Some x -> lookup (snd (mkdirs ps w)) q = Some x.
Proof.
  unfold lookup. destruct (all_seps q); [tauto|]. apply mkdirs_preserves.
Qed.

Lemma open_w_preserves (path : string) (w : world) (q : string) :
  q <> path -> nodes (snd (open_w path w)) !! q = nodes w !! q.
Proof.
  intros Hne. destruct (open_w path w) as [[[]|e] w'] eqn:Hopen.
  - apply open_w_returns in Hopen as [-> _]. simpl. apply lookup_insert_ne. congruence.
  - apply open_w_raises in Hopen as [-> _]. reflexivity.
Qed.

Lemma write_preserves (path data : string) (w : world) (q : string) :
  q <> path -> nodes (snd (write path data w)) !! q = nodes w !! q.
Proof.
  intros Hne. unfold write.
  destruct (nodes w !! path) as [[old|]|]; try reflexivity.
  destruct (space w) as [n|]; [destruct (String.length data <=? n)%nat|];
    simpl; apply lookup_insert_ne; congruence.
Qed.

(** [open] succeeds only under an existing directory. *)
Lemma open_w_parent (path : string) (w w' : world) :
  open_w path w = (Returns tt, w') -> lookup w (dirname path) = Some Dir.
Proof.
  unfold open_w. intros H.
  destruct (nonempty path); simpl in H; [|discriminate].
  destruct (ends_with_sep path); [discriminate|].
  destruct (lookup w path) as [[|]|]; try discriminate;
    destruct (lookup w (dirname path)) as [[|]|]; try discriminate; reflexivity.
Qed.

Lemma open_w_on_directory (path : string) (w : world) :
  lookup w path = Some Dir ->
  exists e, open_w path w = (Raises e, w).
Proof.
  intros Hdir. unfold open_w.
  destruct (nonempty path); simpl; [|eauto].
  destruct (ends_with_sep path); [eauto|].
  rewrite Hdir. eauto.
Qed.

Lemma length_head_through_last_sep (p : string) :
  String.length (head_through_last_sep p) <= String.length p.
Proof.
  induction p as [|c r IH]; simpl; [lia|].
  destruct (contains_sep r); simpl; [lia|].
  destruct (is_sep c); simpl; lia.
Qed.

Lemma head_through_last_sep_ends (p : string) :
  nonempty (head_through_last_sep p) = true ->
  ends_with_sep (head_through_last_sep p) = true.
Proof.
  induction p as [|c r IH]; simpl; [discriminate|].
  destruct (contains_sep r) eqn:Hr.
  - intros _. simpl.
    destruct (head_through_last_sep r) as [|c' r'] eqn:Hhead.
    + exfalso. clear IH. induction r as [|d r IHr]; simpl in *; [discriminate|].
      destruct (contains_sep r); [discriminate|].
      destruct (is_sep d); [discriminate|]. discriminate.
    + apply IH. reflexivity.
  - destruct (is_sep c) eqn:Hc; simpl; [intros _; exact Hc|discriminate].
Qed.

Lemma length_rstrip_sep (s : string) :
  String.length (rstrip_sep s) <= String.length s /\
  (ends_with_sep s = true -> String.length (rstrip_sep s) < String.length s).
Proof.
  induction s as [|c r [IHle IHlt]]; simpl; [split; [lia|discriminate]|].
  destruct (rstrip_sep r) as [|c' r'] eqn:Hr.
  - destruct (is_sep c) eqn:Hc; simpl.
    + split; [lia|intros _; lia].
    + split; [simpl in IHle; lia|].
      destruct r as [|d r'']; [congruence|].
      intros Hends. specialize (IHlt Hends). simpl in IHlt |- *. lia.
  - simpl in *. split; [lia|].
    destruct r as [|d r'']; [discriminate Hr|].
    intros Hends. specialize (IHlt Hends). lia.
Qed.

(** The directory of a file path is another path. *)
Lemma dirname_neq (p : string) :
  nonempty p = true -> ends_with_sep p = false -> dirname p <> p.
Proof.
  intros Hne Hends Heq. unfold dirname in Heq.
  pose proof (length_head_through_last_sep p) as Hlen.
  pose proof (head_through_last_sep_ends p) as Hhead.
  destruct (nonempty (head_through_last_sep p)) eqn:Hnonempty; simpl in Heq.
  - specialize (Hhead eq_refl).
    destruct (all_seps (head_through_last_sep p)); simpl in Heq.
    + rewrite Heq in Hhead. congruence.
    + destruct (length_rstrip_sep (head_through_last_sep p)) as [_ Hlt].
      specialize (Hlt Hhead). rewrite Heq in Hlt. lia.
  - destruct (head_through_last_sep p); [|discriminate].
    subst p. discriminate.
Qed.

End FsFrame.

Section GgufExtras.
Import Fs.

(** X13: whenever the export returns, the directory of the output path exists
    afterwards (the exporter creates it when it was missing) and the file
    is inside it. *)
Theorem export_creates_parent_directory (args : Gguf.Args) (p : Gguf.Process) :
  fst (Gguf.main args p) = Returns tt ->
  lookup (Gguf.os (snd (Gguf.main args p))) (dirname (Gguf.output args)) = Some Dir.
Proof.
  destruct (main_touch args p) as [Hres Hos]. rewrite Hres, Hos. clear Hres Hos.
  generalize (Gguf.output args) (Gguf.os p). intros out w.
  unfold Gguf.touch. rewrite bind_run.
  assert (forall w1,
            fst ((open_w out ;; write out Gguf.mock_data)%eff w1) = Returns tt ->
            lookup (snd ((open_w out ;; write out Gguf.mock_data)%eff w1)) (dirname out)
            = Some Dir) as Hopen_write.
  { intros w1. rewrite bind_run.
    destruct (open_w out w1) as [[[]|e] w2] eqn:Hopen; [|discriminate].
    intros _. pose proof (open_w_parent _ _ _ Hopen) as Hparent.
    assert (dirname out <> out) as Hne.
    { unfold open_w in Hopen.
      destruct (nonempty out) eqn:Hnonempty; simpl in Hopen; [|discriminate].
      destruct (ends_with_sep out) eqn:Hends; [discriminate|].
      apply dirname_neq; assumption. }
    unfold lookup in *. destruct (all_seps (dirname out)); [reflexivity|].
    rewrite write_preserves by exact Hne.
    pose proof (open_w_preserves out w1 (dirname out) Hne) as Hkept.
    rewrite Hopen in Hkept. simpl in Hkept. congruence. }
  destruct (nonempty (dirname out)).
  - destruct (makedirs (dirname out) w) as [[[]|e] w1]; [|discriminate].
    apply Hopen_write.
  - apply Hopen_write.
Qed.

Lemma export_creates_parent_directory_witness :
  lookup (Gguf.os (snd (Gguf.main Gguf.export_against_phi3 (Gguf.fresh Gguf.empty_disk))))
         (dirname (Gguf.output Gguf.export_against_phi3))
  = Some Dir.
Proof.
  apply (export_creates_parent_directory
           Gguf.export_against_phi3 (Gguf.fresh Gguf.empty_disk)).
  vm_compute. reflexivity.
Defined.

Lemma touch_preserves (out : string) (w : world) (q : string) (x : node) :
  q <> out ->
  nodes w !! q = Some x ->
  nodes (snd (Gguf.touch out w)) !! q = Some x.
Proof.
  intros Hne Hq. unfold Gguf.touch. rewrite bind_run.
  assert (forall w1, nodes w1 !! q = Some x ->
            nodes (snd ((open_w out ;; write out Gguf.mock_data)%eff w1)) !! q = Some x)
    as Hopen_write.
  { intros w1 Hq1. rewrite bind_run.
    pose proof (open_w_preserves out w1 q Hne) as Hopen.
    destruct (open_w out w1) as [[[]|e] w2]; simpl in Hopen.
    - rewrite write_preserves by exact Hne. congruence.
    - simpl. congruence. }
  destruct (nonempty (dirname out)).
  - pose proof (mkdirs_preserves (prefixes (dirname out)) w q x Hq) as Hdirs.
    unfold makedirs.
    destruct (mkdirs (prefixes (dirname out)) w) as [[[]|e] w1]; simpl in Hdirs.
    + apply Hopen_write. exact Hdirs.
    + exact Hdirs.
  - apply Hopen_write. exact Hq.
Qed.

(** X14: the exporter never changes or removes what is already on disk, the output
    file apart: every other file and directory is the same after the run,
    whether the run returns or raises. *)
Theorem export_leaves_other_paths_alone
    (args : Gguf.Args) (p : Gguf.Process) (q : string) (x : node) :
  q <> Gguf.output args ->
  nodes (Gguf.os p) !! q = Some x ->
  nodes (Gguf.os (snd (Gguf.main args p))) !! q = Some x.
Proof.
  destruct (main_touch args p) as [_ Hos]. rewrite Hos. apply touch_preserves.
Qed.

Lemma export_leaves_other_paths_alone_witness :
  nodes (Gguf.os (snd (Gguf.main Gguf.export_against_phi3
                         (Gguf.fresh Gguf.disk_with_adapter))))
  !! "adapters/router/adapter_model.safetensors"
  = Some (File "weights").
Proof.
  apply (export_leaves_other_paths_alone
           Gguf.export_against_phi3 (Gguf.fresh Gguf.disk_with_adapter)).
  - discriminate.
  - vm_compute. reflexivity.
Defined.

(** X15: an export onto an existing directory always fails, and the directory
    stays. *)
Theorem export_onto_directory_fails (args : Gguf.Args) (p : Gguf.Process) :
  lookup (Gguf.os p) (Gguf.output args) = Some Dir ->
  (exists e, fst (Gguf.main args p) = Raises e) /\
  lookup (Gguf.os (snd (Gguf.main args p))) (Gguf.output args) = Some Dir.
Proof.
  destruct (main_touch args p) as [Hres Hos]. rewrite Hres, Hos. clear Hres Hos.
  generalize (Gguf.output args) (Gguf.os p). intros out w Hdir.
  unfold Gguf.touch. rewrite bind_run.
  assert (forall w1, lookup w1 out = Some Dir ->
            (exists e, fst ((open_w out ;; write out Gguf.mock_data)%eff w1) = Raises e) /\
            lookup (snd ((open_w out ;; write out Gguf.mock_data)%eff w1)) out = Some Dir)
    as Hopen_write.
  { intros w1 Hdir1. rewrite bind_run.
    destruct (open_w_on_directory out w1 Hdir1) as [e ->]. simpl. eauto. }
  destruct (nonempty (dirname out)).
  - pose proof (mkdirs_preserves_lookup (prefixes (dirname out)) w out Dir Hdir) as Hdirs.
    unfold makedirs.
    destruct (mkdirs (prefixes (dirname out)) w) as [[[]|e] w1]; simpl in Hdirs.
    + apply Hopen_write. exact Hdirs.
    + simpl. eauto.
  - apply Hopen_write. exact Hdir.
Qed.

Lemma export_onto_directory_fails_witness :
  (exists e, fst (Gguf.main Gguf.export_onto_adapter (Gguf.fresh Gguf.disk_with_adapter))
             = Raises e) /\
  lookup (Gguf.os (snd (Gguf.main Gguf.export_onto_adapter
                          (Gguf.fresh Gguf.disk_with_adapter))))
         (Gguf.output Gguf.export_onto_adapter)
  = Some Dir.
Proof.
  apply (export_onto_directory_fails
           Gguf.export_onto_adapter (Gguf.fresh Gguf.disk_with_adapter)).
  vm_compute. reflexivity.
Defined.

(** X16: the streams of a run: the banner always goes to standard error; the
    confirmation line and, on standard output, the Modelfile with the output
    path and the Phi-3 template are printed exactly when the export returns. *)
Theorem export_messages (args : Gguf.Args) (p : Gguf.Process) :
  Gguf.stderr (snd (Gguf.main args p))
  = Gguf.stderr p ++ Gguf.banner args
    ++ match fst (Gguf.main args p) with
       | Returns _ => [nl +:+ "✅ Created mock GGUF file: " +:+ Gguf.output args]
       | Raises _ => []
       end /\
  Gguf.stdout (snd (Gguf.main args p))
  = Gguf.stdout p
    ++ match fst (Gguf.main args p) with
       | Returns _ =>
           [ nl +:+ "You can now import this into Ollama within the Mesh using a Modelfile:";
             Gguf.modelfile (Gguf.output args) ]
       | Raises _ => []
       end.
Proof.
  unfold Gguf.main, Gguf.banner, bind, Gguf.eprint, Gguf.print, modify, Gguf.syscall, ret.
  simpl.
  destruct (nonempty (dirname (Gguf.output args))); simpl.
  - destruct (makedirs (dirname (Gguf.output args)) (Gguf.os p)) as [[[]|e] w1]; simpl;
      [|rewrite <- !app_assoc, !app_nil_r; split; reflexivity].
    destruct (open_w (Gguf.output args) w1) as [[[]|e] w2]; simpl;
      [|rewrite <- !app_assoc, !app_nil_r; split; reflexivity].
    destruct (write (Gguf.output args) Gguf.mock_data w2) as [[[]|e] w3]; simpl;
      rewrite <- !app_assoc, ?app_nil_r; split; reflexivity.
  - destruct (open_w (Gguf.output args) (Gguf.os p)) as [[[]|e] w2]; simpl;
      [|rewrite <- !app_assoc, !app_nil_r; split; reflexivity].
    destruct (write (Gguf.output args) Gguf.mock_data w2) as [[[]|e] w3]; simpl;
      rewrite <- !app_assoc, ?app_nil_r; split; reflexivity.
Qed.

End GgufExtras.

(** ** Further properties of the collector *)

Section GenerateExtras.
Import Json Generate.

Lemma string_app_nil_r (s : string) : s +:+ EmptyString = s.
Proof.
  induction s as [|c s IH]; [reflexivity|].
  change (String c (s +:+ EmptyString) = String c s). f_equal. exact IH.
Qed.

Lemma substring_split (n : nat) (s : string) :
  n < String.length s ->
  exists rest, s = substring 0 n s +:+ rest /\ rest <> EmptyString.
Proof.
  revert s. induction n as [|n IH]; intros s Hlen.
  - exists s. split.
    + destruct s; reflexivity.
    + destruct s; [simpl in Hlen; lia|discriminate].
  - destruct s as [|c s]; [simpl in Hlen; lia|].
    simpl in Hlen. destruct (IH s ltac:(lia)) as (rest & Hs & Hrest).
    exists rest. split; [|exact Hrest].
    simpl. change (String c s = String c (substring 0 n s +:+ rest)).
    f_equal. exact Hs.
Qed.

Lemma dict_get_present (fields : list (string * json)) (key : string) (v dflt : json) :
  NoDup (map fst fields) -> In (key, v) fields -> dict_get fields key dflt = v.
Proof.
  induction fields as [|[k x] rest IH]; simpl; [tauto|].
  intros Hnodup [Hhere|Hlater].
  - injection Hhere as -> ->. rewrite String.eqb_refl. reflexivity.
  - apply NoDup_cons in Hnodup as [Hfresh Hnodup].
    destruct (String.eqb k key) eqn:Hk.
    + apply String.eqb_eq in Hk as ->. exfalso. apply Hfresh.
      apply list_elem_of_In. apply (in_map fst) in Hlater. exact Hlater.
    + apply IH; assumption.
Qed.

Lemma length_dataset_failures (svc : Service) (n : nat) (prompts : list string) :
  length (dataset_of svc n prompts) + length (failures_of svc n prompts) = length prompts.
Proof.
  revert n. induction prompts as [|prompt rest IH]; intros n; simpl; [reflexivity|].
  specialize (IH (S n)).
  pose proof (scored_failure_of prompt (svc n prompt)) as Hcases.
  destruct (failure_of (svc n prompt)).
  - rewrite Hcases. simpl. lia.
  - destruct Hcases as [fields ->]. simpl. lia.
Qed.

Lemma failures_of_are_failures (svc : Service) (n : nat) (prompts : list string) :
  Forall (fun l => exists e, l = FailedToScore e) (failures_of svc n prompts).
Proof.
  revert n. induction prompts as [|prompt rest IH]; intros n; simpl; [constructor|].
  destruct (failure_of (svc n prompt)); [constructor; eauto|apply IH].
Qed.

(** The lines of a dataset reach the file in order; when the device fills up
    the file keeps a proper prefix of the text. *)
Lemma write_lines_run (path : string) (results : list Sample) (p : Process) (old : string) :
  Fs.nodes (os p) !! path = Some (Fs.File old) ->
  match write_lines path results p with
  | (Returns _, q) =>
      Fs.nodes (os q) !! path = Some (Fs.File (old +:+ dataset_text results)) /\
      requests q = requests p /\ stdout q = stdout p
  | (Raises e, q) =>
      e = OSError Fs.NoSpaceLeft /\ stdout q = stdout p /\
      exists kept rest,
        Fs.nodes (os q) !! path = Some (Fs.File kept) /\
        old +:+ dataset_text results = kept +:+ rest /\ rest <> EmptyString
  end.
Proof.
  revert p old. induction results as [|r0 others IH]; intros p old Hfile.
  - simpl. rewrite string_app_nil_r. auto.
  - cbn [write_lines dataset_text]. rewrite bind_run. unfold syscall, Fs.write.
    rewrite Hfile.
    set (line := json_dumps (sample_json r0) +:+ nl).
    destruct (Fs.space (os p)) as [n|].
    + destruct (String.length line <=? n)%nat eqn:Hfit.
      * match goal with
        | |- context [write_lines path others ?q] =>
            specialize (IH q (old +:+ line))
        end.
        cbn [os Fs.nodes requests stdout] in IH.
        specialize (IH ltac:(apply lookup_insert_eq)).
        destruct (write_lines path others _) as [[[]|e] q'].
        -- rewrite <- string_app_assoc. exact IH.
        -- rewrite <- string_app_assoc. exact IH.
      * apply Nat.leb_gt in Hfit.
        destruct (substring_split n line Hfit) as (rest & Hline & Hrest).
        cbn [os Fs.nodes stdout].
        split; [reflexivity|]. split; [reflexivity|].
        exists (old +:+ substring 0 n line), (rest +:+ dataset_text others).
        split; [apply lookup_insert_eq|]. split.
        -- rewrite string_app_assoc, <- (string_app_assoc (substring 0 n line)), <- Hline.
           reflexivity.
        -- destruct rest; [congruence|discriminate].
    + match goal with
      | |- context [write_lines path others ?q] =>
          specialize (IH q (old +:+ line))
      end.
      cbn [os Fs.nodes requests stdout Fs.with_nodes] in IH.
      specialize (IH ltac:(apply lookup_insert_eq)).
      destruct (write_lines path others _) as [[[]|e] q'].
      * rewrite <- string_app_assoc. exact IH.
      * rewrite <- string_app_assoc. exact IH.
Qed.

Lemma open_w_missing_parent (path : string) (w : Fs.world) :
  Fs.lookup w (Fs.dirname path) = None ->
  exists e, Fs.open_w path w = (Raises e, w).
Proof.
  intros Hparent. unfold Fs.open_w.
  destruct (Fs.nonempty path); simpl; [|eauto].
  destruct (Fs.ends_with_sep path); [eauto|].
  rewrite Hparent. destruct (Fs.lookup w path) as [[|]|]; eauto.
Qed.

(** X1: [generate_sample] contains every failure: it always returns, after one
    request and without touching the file system; it returns [None] with one
    line on standard output when the scoring failed, and a record with no
    output otherwise. *)
Theorem generate_sample_contains_failures (svc : Service) (prompt : string) (p : Process) :
  exists res,
    fst (generate_sample svc prompt p) = Returns res /\
    requests (snd (generate_sample svc prompt p)) = S (requests p) /\
    os (snd (generate_sample svc prompt p)) = os p /\
    ((res = None /\
      exists e, stdout (snd (generate_sample svc prompt p)) = stdout p ++ [FailedToScore e])
     \/
     (exists sample, res = Some sample /\
        stdout (snd (generate_sample svc prompt p)) = stdout p)).
Proof.
  rewrite generate_sample_run. cbn [fst snd requests os stdout].
  exists (scored prompt (svc (requests p) prompt)).
  split; [reflexivity|]. split; [reflexivity|]. split; [reflexivity|].
  pose proof (scored_failure_of prompt (svc (requests p) prompt)) as Hcases.
  destruct (failure_of (svc (requests p) prompt)) as [e|].
  - left. split; [exact Hcases|]. exists e. reflexivity.
  - right. destruct Hcases as [fields Hrec].
    exists (record_of prompt fields). split; [exact Hrec|]. apply app_nil_r.
Qed.

(** X2: the fields of the answer are stored as they come: whatever JSON value the
    service sends under [complexityScore] and [routingTier] (a number outside
    [0, 1], a string, [null]) becomes the record's [complexity_score] and
    [tier], without validation. *)
Theorem fields_are_stored_unvalidated
    (svc : Service) (prompt : string) (p : Process)
    (status : Z) (fields : list (string * json)) (score label : json) :
  svc (requests p) prompt = Answered status (Some (JObj fields)) ->
  http_error status = false ->
  NoDup (map fst fields) ->
  In ("complexityScore", score) fields ->
  In ("routingTier", label) fields ->
  exists sample,
    fst (generate_sample svc prompt p) = Returns (Some sample) /\
    complexity_score sample = score /\
    tier sample = label.
Proof.
  intros Hreply Hstatus Hnodup Hscore Hlabel.
  rewrite generate_sample_run, Hreply. cbn [fst scored]. rewrite Hstatus.
  eexists. split; [reflexivity|]. cbn [complexity_score tier record_of].
  split; apply dict_get_present; assumption.
Qed.

Lemma fields_are_stored_unvalidated_witness :
  exists sample,
    fst (generate_sample careless "Hello!" (fresh empty_disk)) = Returns (Some sample) /\
    complexity_score sample = JNum "7.5" /\
    tier sample = JNull.
Proof.
  apply (fields_are_stored_unvalidated careless "Hello!" (fresh empty_disk) 200
           [ ("routingTier", JNull); ("complexityScore", JNum "7.5") ]).
  - reflexivity.
  - reflexivity.
  - simpl. apply NoDup_cons. split; [|apply NoDup_singleton].
    intros Hin. apply list_elem_of_singleton in Hin. discriminate.
  - simpl. tauto.
  - simpl. tauto.
Defined.

(** X3: every prompt is requested once and ends up either as a record or as a
    failure line: the loop returns, leaves the file system alone, and the
    number of records plus the number of lines it printed is the number of
    prompts. *)
Theorem every_prompt_is_scored_or_reported
    (svc : Service) (prompts : list string) (p : Process) :
  exists results printed,
    collect svc prompts [] p
    = (Returns results,
       {| requests := requests p + length prompts;
          stdout := stdout p ++ printed;
          os := os p |}) /\
    length results + length printed = length prompts /\
    Forall (fun l => exists e, l = FailedToScore e) printed.
Proof.
  exists (dataset_of svc (requests p) prompts), (failures_of svc (requests p) prompts).
  split; [apply collect_run|].
  split; [apply length_dataset_failures|apply failures_of_are_failures].
Qed.

(** X4: a run that returns leaves at [--output] exactly the collected records, one
    serialized record per line in collection order, replacing whatever the
    file held before; its last message reports their number. *)
Theorem successful_run_writes_the_dataset (svc : Service) (args : Args) (p : Process) :
  fst (main svc args p) = Returns tt ->
  exists results,
    fst (collect svc (seed_prompts (samples args)) [] p) = Returns results /\
    Fs.lookup (os (snd (main svc args p))) (output args)
    = Some (Fs.File (dataset_text results)) /\
    last (stdout (snd (main svc args p)))
    = Some (Line ("Successfully saved " +:+ pretty (length results)
                  +:+ " samples to " +:+ output args)).
Proof.
  rewrite main_run, collect_run. cbv zeta. cbn [fst app].
  intros Hret. eexists. split; [reflexivity|].
  destruct (Fs.open_w (output args) (os p)) as [[[]|e] w] eqn:Hopen; [|discriminate].
  apply open_w_returns in Hopen as [-> Hall].
  match goal with
  | |- context [write_lines ?path ?rs ?q] =>
      pose proof (write_lines_run path rs q EmptyString) as Hwrite
  end.
  cbn [os Fs.nodes Fs.with_nodes] in Hwrite.
  specialize (Hwrite ltac:(apply lookup_insert_eq)).
  destruct (write_lines _ _ _) as [[[]|e] q]; [|discriminate].
  destruct Hwrite as (Hfile & _ & _). cbn [snd os stdout].
  split.
  - unfold Fs.lookup. rewrite Hall. exact Hfile.
  - apply last_snoc.
Qed.

Lemma successful_run_writes_the_dataset_witness :
  exists results,
    fst (collect greeter (seed_prompts (samples five_request)) []
           (fresh disk_with_stale_dataset)) = Returns results /\
    Fs.lookup (os (snd (main greeter five_request (fresh disk_with_stale_dataset))))
              (output five_request)
    = Some (Fs.File (dataset_text results)) /\
    last (stdout (snd (main greeter five_request (fresh disk_with_stale_dataset))))
    = Some (Line ("Successfully saved " +:+ pretty (length results)
                  +:+ " samples to " +:+ output five_request)).
Proof.
  apply (successful_run_writes_the_dataset greeter five_request
           (fresh disk_with_stale_dataset)).
  vm_compute. reflexivity.
Defined.

(** X5: a run that fails while writing leaves at [--output] a truncated dataset:
    a proper prefix of the text it was writing; nothing cleans it up. *)
Theorem full_disk_leaves_truncated_dataset (svc : Service) (args : Args) (p : Process) :
  fst (main svc args p) = Raises (OSError Fs.NoSpaceLeft) ->
  exists results kept rest,
    fst (collect svc (seed_prompts (samples args)) [] p) = Returns results /\
    Fs.lookup (os (snd (main svc args p))) (output args) = Some (Fs.File kept) /\
    dataset_text results = kept +:+ rest /\
    rest <> EmptyString.
Proof.
  rewrite main_run, collect_run. cbv zeta. cbn [fst app].
  intros Hraise. eexists.
  destruct (Fs.open_w (output args) (os p)) as [[[]|e] w] eqn:Hopen.
  - apply open_w_returns in Hopen as [-> Hall].
    match goal with
    | |- context [write_lines ?path ?rs ?q] =>
        pose proof (write_lines_run path rs q EmptyString) as Hwrite
    end.
    cbn [os Fs.nodes Fs.with_nodes] in Hwrite.
    specialize (Hwrite ltac:(apply lookup_insert_eq)).
    destruct (write_lines _ _ _) as [[[]|e] q]; [discriminate|].
    destruct Hwrite as (_ & _ & kept & rest & Hfile & Htext & Hrest).
    exists kept, rest. cbn [snd]. split; [reflexivity|].
    split; [unfold Fs.lookup; rewrite Hall; exact Hfile|].
    split; [exact Htext|exact Hrest].
  - apply open_w_raises in Hopen as [_ Hne]. cbn [fst] in Hraise. congruence.
Qed.

Lemma full_disk_leaves_truncated_dataset_witness :
  exists results kept rest,
    fst (collect greeter (seed_prompts (samples five_request)) [] (fresh tight_disk))
    = Returns results /\
    Fs.lookup (os (snd (main greeter five_request (fresh tight_disk)))) (output five_request)
    = Some (Fs.File kept) /\
    dataset_text results = kept +:+ rest /\
    rest <> EmptyString.
Proof.
  apply (full_disk_leaves_truncated_dataset greeter five_request (fresh tight_disk)).
  vm_compute. reflexivity.
Defined.

(** X6: the collector never creates the directory of [--output]: when it is
    missing the run raises, after every prompt has been requested, and the
    file system is as it was. *)
Theorem collector_needs_the_output_directory (svc : Service) (args : Args) (p : Process) :
  Fs.lookup (os p) (Fs.dirname (output args)) = None ->
  (exists e, fst (main svc args p) = Raises (OSError e)) /\
  os (snd (main svc args p)) = os p /\
  requests (snd (main svc args p)) = requests p + length (seed_prompts (samples args)).
Proof.
  intros Hparent. rewrite main_run. cbv zeta.
  destruct (open_w_missing_parent (output args) (os p) Hparent) as [e ->].
  cbn [fst snd os requests]. eauto.
Qed.

Lemma collector_needs_the_output_directory_witness :
  (exists e, fst (main greeter nested_request (fresh empty_disk)) = Raises (OSError e)) /\
  os (snd (main greeter nested_request (fresh empty_disk))) = os (fresh empty_disk) /\
  requests (snd (main greeter nested_request (fresh empty_disk)))
  = requests (fresh empty_disk) + length (seed_prompts (samples nested_request)).
Proof.
  apply (collector_needs_the_output_directory greeter nested_request (fresh empty_disk)).
  reflexivity.
Defined.

Lemma write_lines_unlimited (path : string) (results : list Sample) (p : Process) (old : string) :
  Fs.space (os p) = None ->
  Fs.nodes (os p) !! path = Some (Fs.File old) ->
  fst (write_lines path results p) = Returns tt.
Proof.
  revert p old. induction results as [|r0 others IH]; intros p old Hspace Hfile.
  - reflexivity.
  - cbn [write_lines]. rewrite bind_run. unfold syscall, Fs.write.
    rewrite Hfile, Hspace.
    eapply IH; cbn [os Fs.space Fs.nodes Fs.with_nodes];
      [exact Hspace|apply lookup_insert_eq].
Qed.

Lemma open_w_succeeds (path : string) (w : Fs.world) :
  Fs.nonempty path = true ->
  Fs.ends_with_sep path = false ->
  Fs.lookup w path <> Some Fs.Dir ->
  Fs.lookup w (Fs.dirname path) = Some Fs.Dir ->
  path ∉ Fs.denied w ->
  Fs.open_w path w = (Returns tt, Fs.with_nodes (insert path (Fs.File EmptyString)) w).
Proof.
  intros Hne Hends Hnodir Hparent Hallowed. unfold Fs.open_w.
  rewrite Hne, Hends, Hparent. simpl.
  rewrite bool_decide_eq_false_2 by exact Hallowed.
  destruct (Fs.lookup w path) as [[|]|]; congruence.
Qed.

(** X7: the outcome of a run does not depend on the routing service: when the
    output file can be opened and the device has room, the run returns,
    however many prompts fail to score. *)
Theorem collector_returns_whatever_the_service_does
    (svc : Service) (args : Args) (p : Process) :
  Fs.space (os p) = None ->
  Fs.nonempty (output args) = true ->
  Fs.ends_with_sep (output args) = false ->
  Fs.lookup (os p) (output args) <> Some Fs.Dir ->
  Fs.lookup (os p) (Fs.dirname (output args)) = Some Fs.Dir ->
  output args ∉ Fs.denied (os p) ->
  fst (main svc args p) = Returns tt.
Proof.
  intros Hspace Hne Hends Hnodir Hparent Hallowed.
  rewrite main_run. cbv zeta.
  rewrite (open_w_succeeds _ _ Hne Hends Hnodir Hparent Hallowed).
  match goal with
  | |- context [write_lines ?path ?rs ?q] =>
      pose proof (write_lines_unlimited path rs q EmptyString) as Hwrite
  end.
  cbn [os Fs.space Fs.nodes Fs.with_nodes] in Hwrite.
  specialize (Hwrite Hspace ltac:(apply lookup_insert_eq)).
  destruct (write_lines _ _ _) as [[[]|e] q]; [reflexivity|discriminate].
Qed.

Lemma collector_returns_whatever_the_service_does_witness :
  fst (main (fun _ _ => TimedOut) five_request (fresh empty_disk)) = Returns tt.
Proof.
  apply (collector_returns_whatever_the_service_does
           (fun _ _ => TimedOut) five_request (fresh empty_disk)).
  - reflexivity.
  - reflexivity.
  - reflexivity.
  - discriminate.
  - reflexivity.
  - apply not_elem_of_empty.
Defined.

Lemma lookup_concat_replicate {A} (l : list A) (k i : nat) :
  i < k * length l ->
  concat (replicate k l) !! i = l !! (i mod length l).
Proof.
  revert i. induction k as [|k IH]; intros i Hi; [simpl in Hi; lia|].
  simpl. destruct (decide (i < length l)) as [Hin|Hout].
  - rewrite lookup_app_l by exact Hin. rewrite Nat.mod_small by exact Hin. reflexivity.
  - rewrite lookup_app_r by lia. rewrite IH by (simpl in Hi; lia).
    replace i with ((i - length l) + 1 * length l) at 2 by lia.
    rewrite Nat.Div0.mod_add. reflexivity.
Qed.

(** X8: the prompts go round the five seed prompts: the [i]-th prompt attempted
    is seed prompt number [i mod 5], so every seed prompt is asked again in
    each round and nothing is deduplicated. *)
Theorem seed_prompts_cycle (samples : Z) (i : nat) :
  i < length (seed_prompts samples) ->
  seed_prompts samples !! i = seed_prompts 5 !! (i mod 5).
Proof.
  rewrite length_seed_prompts. intros Hi.
  unfold seed_prompts, list_mul at 1.
  rewrite lookup_concat_replicate by (simpl; lia). reflexivity.
Qed.

Lemma seed_prompts_cycle_witness :
  seed_prompts 100 !! 8 = seed_prompts 5 !! (8 mod 5).
Proof.
  apply (seed_prompts_cycle 100 8). vm_compute. lia.
Defined.

End GenerateExtras.

Section FsDirectories.
Import Fs.

Lemma length_string_app (a b : string) :
  String.length (a +:+ b) = String.length a + String.length b.
Proof.
  induction a as [|c a IH]; [reflexivity|].
  change (S (String.length (a +:+ b)) = S (String.length a + String.length b)).
  f_equal. exact IH.
Qed.

Lemma ends_with_sep_cons (c : ascii) (s : string) :
  nonempty s = true -> ends_with_sep (String c s) = ends_with_sep s.
Proof. destruct s; [discriminate|reflexivity]. Qed.

Lemma rstrip_sep_no_trailing (s : string) : ends_with_sep (rstrip_sep s) = false.
Proof.
  induction s as [|c r IH]; simpl; [reflexivity|].
  destruct (rstrip_sep r) as [|c' r'] eqn:Hr.
  - destruct (is_sep c) eqn:Hc; simpl; [reflexivity|exact Hc].
  - exact IH.
Qed.

Lemma rstrip_sep_nonempty (s : string) :
  all_seps s = false -> nonempty (rstrip_sep s) = true.
Proof.
  induction s as [|c r IH]; simpl; [discriminate|].
  intros Hall. destruct (rstrip_sep r) as [|c' r'] eqn:Hr; [|reflexivity].
  destruct (is_sep c); [|reflexivity].
  simpl in Hall. specialize (IH Hall). discriminate.
Qed.

Lemma length_head_strict (p : string) :
  nonempty p = true -> ends_with_sep p = false ->
  String.length (head_through_last_sep p) < String.length p.
Proof.
  induction p as [|c r IH]; [discriminate|]. intros _ Hends.
  cbn [head_through_last_sep].
  destruct (contains_sep r) eqn:Hr.
  - assert (nonempty r = true) as Hne by (destruct r; [discriminate|reflexivity]).
    rewrite (ends_with_sep_cons c r Hne) in Hends.
    specialize (IH Hne Hends). simpl. lia.
  - destruct (is_sep c) eqn:Hc; simpl; [|lia].
    destruct r; [simpl in Hends; congruence|simpl; lia].
Qed.

Lemma length_dirname (p : string) :
  nonempty p = true -> ends_with_sep p = false ->
  String.length (dirname p) < String.length p.
Proof.
  intros Hne Hends. pose proof (length_head_strict p Hne Hends) as Hhead.
  unfold dirname.
  destruct (nonempty (head_through_last_sep p) && negb (all_seps (head_through_last_sep p)));
    [|exact Hhead].
  destruct (length_rstrip_sep (head_through_last_sep p)) as [Hle _]. lia.
Qed.

Lemma dirname_no_trailing (p : string) :
  all_seps (dirname p) = false -> ends_with_sep (dirname p) = false.
Proof.
  unfold dirname.
  destruct (nonempty (head_through_last_sep p)) eqn:Hne; simpl.
  - destruct (all_seps (head_through_last_sep p)) eqn:Hall; simpl.
    + congruence.
    + intros _. apply rstrip_sep_no_trailing.
  - destruct (head_through_last_sep p); [discriminate|discriminate].
Qed.

Lemma prefixes_from_length (acc rest d : string) :
  In d (prefixes_from acc rest) ->
  String.length d <= String.length acc + String.length rest.
Proof.
  revert acc. induction rest as [|c r IH]; intros acc; cbn [prefixes_from].
  - destruct (nonempty acc && negb (ends_with_sep acc)); simpl; [|tauto].
    intros [<-|[]]. lia.
  - assert (In d (prefixes_from (acc +:+ String c EmptyString) r) ->
            String.length d <= String.length acc + String.length (String c r)) as Hrec.
    { intros Hin. apply IH in Hin. rewrite length_string_app in Hin. simpl in *. lia. }
    destruct (is_sep c); [|exact Hrec].
    intros Hin. apply in_app_or in Hin as [Hhere|Hlater]; [|apply Hrec; exact Hlater].
    destruct (nonempty acc && negb (ends_with_sep acc)); simpl in Hhere; [|tauto].
    destruct Hhere as [<-|[]]. lia.
Qed.

Lemma prefixes_from_whole (acc rest : string) :
  nonempty (acc +:+ rest) = true ->
  ends_with_sep (acc +:+ rest) = false ->
  In (acc +:+ rest) (prefixes_from acc rest).
Proof.
  revert acc. induction rest as [|c r IH]; intros acc; cbn [prefixes_from].
  - rewrite string_app_nil_r. intros -> ->. simpl. tauto.
  - intros Hne Hends.
    assert (In (acc +:+ String c r) (prefixes_from (acc +:+ String c EmptyString) r)) as Hrec.
    { replace (acc +:+ String c r) with ((acc +:+ String c EmptyString) +:+ r)
        by (rewrite string_app_assoc; reflexivity).
      apply IH; rewrite string_app_assoc; assumption. }
    destruct (is_sep c); [apply in_or_app; right|]; exact Hrec.
Qed.

Lemma prefixes_whole (d : string) :
  nonempty d = true -> ends_with_sep d = false -> In d (prefixes d).
Proof. intros Hne Hends. apply (prefixes_from_whole EmptyString d); assumption. Qed.

(** On a disk where nothing is denied, [os.makedirs] returns as soon as no
    directory on the way is a file, and every one of them is a directory
    afterwards; the rest of the disk is as before. *)
Lemma mkdirs_succeeds (ps : list string) (w : world) :
  denied w = ∅ ->
  (forall d c, In d ps -> lookup w d <> Some (File c)) ->
  fst (mkdirs ps w) = Returns tt /\
  denied (snd (mkdirs ps w)) = ∅ /\
  space (snd (mkdirs ps w)) = space w /\
  (forall d, In d ps -> lookup (snd (mkdirs ps w)) d = Some Dir) /\
  (forall q, ~ In q ps -> nodes (snd (mkdirs ps w)) !! q = nodes w !! q).
Proof.
  revert w. induction ps as [|p rest IH]; intros w Hdenied Hnofile.
  - simpl. repeat split; try assumption; simpl; tauto.
  - cbn [mkdirs]. rewrite bind_run. unfold mkdir_exist_ok.
    destruct (lookup w p) as [[c|]|] eqn:Hp.
    + exfalso. apply (Hnofile p c); [left; reflexivity|exact Hp].
    + destruct (IH w Hdenied) as (Hret & Hden & Hsp & Hdirs & Hframe).
      { intros d c Hin. apply Hnofile. right. exact Hin. }
      split; [exact Hret|]. split; [exact Hden|]. split; [exact Hsp|]. split.
      * intros d [<-|Hin]; [|apply Hdirs; exact Hin].
        apply mkdirs_preserves_lookup. exact Hp.
      * intros q Hq. apply Hframe. intros Hin. apply Hq. right. exact Hin.
    + rewrite Hdenied. rewrite bool_decide_eq_false_2 by apply not_elem_of_empty.
      set (w1 := with_nodes (insert p Dir) w).
      assert (lookup w1 p = Some Dir) as Hp1.
      { unfold lookup in *. destruct (all_seps p); [reflexivity|].
        simpl. apply lookup_insert_eq. }
      destruct (IH w1) as (Hret & Hden & Hsp & Hdirs & Hframe).
      { exact Hdenied. }
      { intros d c Hin Hfile. destruct (decide (d = p)) as [->|Hne]; [congruence|].
        apply (Hnofile d c); [right; exact Hin|].
        unfold lookup in *. destruct (all_seps d); [exact Hfile|].
        simpl in Hfile. rewrite lookup_insert_ne in Hfile by congruence. exact Hfile. }
      split; [exact Hret|]. split; [exact Hden|]. split; [exact Hsp|]. split.
      * intros d [<-|Hin]; [|apply Hdirs; exact Hin].
        apply mkdirs_preserves_lookup. exact Hp1.
      * intros q Hq. rewrite Hframe by (intros Hin; apply Hq; right; exact Hin).
        simpl. apply lookup_insert_ne. intros ->. apply Hq. left. reflexivity.
Qed.

End FsDirectories.

Section GgufSuccess.
Import Fs.

(** X17: the export returns on a disk that can take it: nothing is denied, the
    device has room, no directory on the way to the output path is a file and
    the output path is not a directory.  Missing directories are created. *)
Theorem export_returns_on_a_writable_disk (args : Gguf.Args) (p : Gguf.Process) :
  denied (Gguf.os p) = ∅ ->
  space (Gguf.os p) = None ->
  nonempty (Gguf.output args) = true ->
  ends_with_sep (Gguf.output args) = false ->
  lookup (Gguf.os p) (Gguf.output args) <> Some Dir ->
  (forall d c, In d (prefixes (dirname (Gguf.output args))) ->
               lookup (Gguf.os p) d <> Some (File c)) ->
  fst (Gguf.main args p) = Returns tt.
Proof.
  destruct (main_touch args p) as [Hres _]. rewrite Hres. clear Hres.
  generalize (Gguf.output args) (Gguf.os p). intros out w.
  intros Hdenied Hspace Hne Hends Hnodir Hnofile.
  assert (forall w1,
            denied w1 = ∅ -> space w1 = None ->
            lookup w1 out <> Some Dir ->
            lookup w1 (dirname out) = Some Dir ->
            fst ((open_w out ;; write out Gguf.mock_data)%eff w1) = Returns tt)
    as Hopen_write.
  { intros w1 Hden1 Hsp1 Hnodir1 Hparent1. rewrite bind_run.
    rewrite (open_w_succeeds out w1 Hne Hends Hnodir1 Hparent1)
      by (rewrite Hden1; apply not_elem_of_empty).
    unfold write. cbn [nodes with_nodes space]. rewrite lookup_insert_eq, Hsp1.
    reflexivity. }
  unfold Gguf.touch. rewrite bind_run.
  destruct (nonempty (dirname out)) eqn:Hdir.
  - unfold makedirs.
    destruct (mkdirs_succeeds (prefixes (dirname out)) w Hdenied Hnofile)
      as (Hret & Hden & Hsp & Hdirs & Hframe).
    destruct (mkdirs (prefixes (dirname out)) w) as [[[]|e] w1];
      simpl in Hret, Hden, Hsp, Hdirs, Hframe; [|discriminate].
    apply Hopen_write; [exact Hden|congruence| |].
    + assert (~ In out (prefixes (dirname out))) as Hfresh.
      { intros Hin. apply prefixes_from_length in Hin.
        pose proof (length_dirname out Hne Hends). simpl in Hin. lia. }
      unfold lookup in *. destruct (all_seps out); [exact Hnodir|].
      rewrite Hframe by exact Hfresh. exact Hnodir.
    + destruct (all_seps (dirname out)) eqn:Hall.
      * unfold lookup. rewrite Hall. reflexivity.
      * apply Hdirs. apply prefixes_whole; [exact Hdir|].
        apply dirname_no_trailing. exact Hall.
  - apply Hopen_write; try assumption.
    destruct (dirname out); [reflexivity|discriminate].
Qed.

Lemma export_returns_on_a_writable_disk_witness :
  fst (Gguf.main Gguf.export_against_phi3 (Gguf.fresh Gguf.disk_with_adapter)) = Returns tt.
Proof.
  apply (export_returns_on_a_writable_disk
           Gguf.export_against_phi3 (Gguf.fresh Gguf.disk_with_adapter)).
  - reflexivity.
  - reflexivity.
  - reflexivity.
  - reflexivity.
  - vm_compute. discriminate.
  - intros d c [<-|[]]. vm_compute. discriminate.
Defined.

End GgufSuccess.
